(** * The metagraph: chain state as a bundle of named tensors

    A shallow embedding of [bittensor/_metagraph/metagraph_impl.py].

    The [Metagraph] object is a [torch.nn.Module]: every attribute that is
    assigned a [torch.nn.Parameter] lands in the module's parameter
    dictionary, and [state_dict()] returns exactly that dictionary.  The
    object is therefore modelled as a finite map from attribute names to
    tensors, next to the one plain attribute [_endpoint_objs].

    Numbers.  Tensor entries are rationals.  A [float32] entry is the
    rational its binary fraction denotes: the cast to [float32] rounds to 24
    significant bits, Python's float arithmetic to 53, both to the nearest
    value with ties to even.  The cast to [int64] truncates towards zero, as
    [torch.tensor(.., dtype=torch.int64)] does.  Infinities and the overflow
    of [int64] have no counterpart among the rationals; a property that
    gives the value of a stored score, weight or bond is stated for numbers
    of magnitude below 2^63.

    Effects.  Methods mutate [self] and may raise.  They are written in a
    state monad whose state survives an exception, as Python's does. *)

From Stdlib Require Import ZArith QArith Qabs Ascii String.
From stdpp Require Import gmap strings list pretty.

(** ** Exceptions and the state-and-exception monad *)

Inductive exn : Type :=
| KeyError (key : string)            (* state_dict[key] on a missing key *)
| AttributeError (name : string)     (* self.name on a missing attribute *)
| ValueError                         (* .item() on a tensor with several entries *)
| TypeError                          (* iteration over a 0-d tensor *)
| IndexOutOfRange (peer_uid : Z)     (* sparse-to-dense conversion *)
| EncodingError                      (* endpoint codec *)
| LedgerError                        (* the ledger collaborator did not answer *)
| FileNotFoundError (path : string)  (* torch.load on an absent file *)
| UnpicklingError (path : string).   (* torch.load on malformed bytes *)

Definition M (S A : Type) : Type := S -> S * (exn + A).

Definition ret {S A} (a : A) : M S A := fun s => (s, inr a).

Definition bind {S A B} (c : M S A) (k : A -> M S B) : M S B :=
  fun s =>
    match c s with
    | (s', inr a) => k a s'
    | (s', inl e) => (s', inl e)
    end.

Definition raise {S A} (e : exn) : M S A := fun s => (s, inl e).

Definition get {S} : M S S := fun s => (s, inr s).

Definition modify {S} (f : S -> S) : M S unit := fun s => (f s, inr tt).

(** A pure computation that may raise, run inside the monad. *)
Definition lift {S A} (r : exn + A) : M S A := fun s => (s, r).

(** [try: c except Exception as e: h e]. *)
Definition try_except {S A} (c : M S A) (h : exn -> M S A) : M S A :=
  fun s =>
    match c s with
    | (s', inr a) => (s', inr a)
    | (s', inl e) => h e s'
    end.

Declare Scope py_scope.
Delimit Scope py_scope with py.
Notation "x <- c ;; k" := (bind c (fun x => k))
  (at level 100, c at next level, right associativity) : py_scope.
Notation "c ;; k" := (bind c (fun _ => k))
  (at level 100, right associativity) : py_scope.
Open Scope py_scope.

(** [for x in xs: acc = body acc x], with the loop-carried locals [acc]. *)
Fixpoint for_each {S A X} (body : A -> X -> M S A) (xs : list X) (acc : A) : M S A :=
  match xs with
  | [] => ret acc
  | x :: xs' => acc' <- body acc x ;; for_each body xs' acc'
  end.

(** A list comprehension whose element expression may raise. *)
Fixpoint comprehension {A B} (f : A -> exn + B) (xs : list A) : exn + list B :=
  match xs with
  | [] => inr []
  | x :: xs' =>
      match f x with
      | inl e => inl e
      | inr y =>
          match comprehension f xs' with
          | inl e => inl e
          | inr ys => inr (y :: ys)
          end
      end
  end.

(** ** Tensors *)

Inductive dtype : Type := float32 | int64.

Definition Qtrunc (x : Q) : Z := Z.quot (Qnum x) (Zpos (Qden x)).

(** Binary floating point.  The integer nearest to [a / b] for a positive
    [b], ties going to the even one. *)
Definition round_half_even (a b : Z) : Z :=
  let q := (a / b)%Z in
  match (2 * (a mod b) ?= b)%Z with
  | Lt => q
  | Gt => (q + 1)%Z
  | Eq => if Z.even q then q else (q + 1)%Z
  end.

(** The exponent of the leading bit of a non-zero [x]: the floor of the
    binary logarithm of its magnitude. *)
Definition ilog2 (x : Q) : Z :=
  let n := Z.abs (Qnum x) in
  let d := Zpos (Qden x) in
  if (d <=? n)%Z then Z.log2 (n / d) else (- Z.log2_up ((d + n - 1) / n))%Z.

(** [m * 2^e] as a fraction in lowest terms. *)
Definition scale2 (m e : Z) : Q :=
  Qred (if (0 <=? e)%Z then inject_Z (m * 2 ^ e)
        else Qmake m (Z.to_pos (2 ^ (- e)))).

(** Rounding to the nearest binary fraction with [prec] significant bits and
    an exponent not below [emin], ties to even (IEEE 754 round-to-nearest).
    The exponent has no upper bound here: where the machine format overflows
    to an infinity, from 2^128 on for [float32], this function does not. *)
Definition binary_round (prec emin : Z) (x : Q) : Q :=
  if (Qnum x =? 0)%Z then 0%Q
  else
    let e := Z.max (ilog2 x - (prec - 1)) emin in
    let m :=
      if (0 <=? e)%Z
      then round_half_even (Qnum x) (Zpos (Qden x) * 2 ^ e)
      else round_half_even (Qnum x * 2 ^ (- e)) (Zpos (Qden x)) in
    scale2 m e.

Arguments binary_round : simpl never.

(** A Python [float], and a [torch.float32]. *)
Definition binary64 (x : Q) : Q := binary_round 53 (-1074) x.

Definition binary32 (x : Q) : Q := binary_round 24 (-149) x.

(** [a / b] for a Python [int] and a Python [float]: the integer is converted
    to a float, and the quotient of the two floats is rounded. *)
Definition truediv (a : Z) (b : Q) : Q := binary64 (binary64 (inject_Z a) / b).

Arguments truediv : simpl never.

(** What [torch.tensor(.., dtype=dt)] stores for one Python number.  For
    [float32] the number reaches torch as a double and is rounded once more;
    for [int64] it is truncated towards zero. *)
Definition cast (dt : dtype) (x : Q) : Q :=
  match dt with
  | float32 => binary32 (binary64 x)
  | int64 => inject_Z (Qtrunc x)
  end.

Arguments cast : simpl never.

Inductive tensor : Type :=
| T0 (x : Q)                  (* shape ()      *)
| T1 (v : list Q)             (* shape (k,)    *)
| T2 (m : list (list Q)).     (* shape (k, j)  *)

(** [torch.tensor(x, dtype=dt)] on a number, a list and a list of lists.
    An empty outer list gives a tensor of shape (0,). *)
Definition tensor_of_number (dt : dtype) (x : Q) : tensor := T0 (cast dt x).

Definition tensor_of_list (dt : dtype) (l : list Q) : tensor := T1 (map (cast dt) l).

Definition tensor_of_rows (dt : dtype) (rows : list (list Q)) : tensor :=
  match rows with
  | [] => T1 []
  | _ :: _ => T2 (map (map (cast dt)) rows)
  end.

(** [t.item()] *)
Definition item (t : tensor) : exn + Q :=
  match t with
  | T0 x => inr x
  | T1 [x] => inr x
  | T2 [[x]] => inr x
  | _ => inl ValueError
  end.

(** [for row in t] *)
Definition iter_tensor (t : tensor) : exn + list tensor :=
  match t with
  | T0 _ => inl TypeError
  | T1 v => inr (map T0 v)
  | T2 m => inr (map T1 m)
  end.

(** Read-only views used to state properties: the entries of a vector and the
    rows of a matrix. *)
Definition entries (t : tensor) : list Q :=
  match t with
  | T1 v => v
  | _ => []
  end.

Definition rows (t : tensor) : list (list Q) :=
  match t with
  | T2 m => m
  | _ => []
  end.

Definition Qsum (l : list Q) : Q := foldr Qplus 0%Q l.

(** ** Neuron records, endpoints and the ledger collaborator *)

Module Neuron.
Record t : Type := mk {
  uid : Z;
  active : Z;
  stake : Z;
  rank : Z;
  trust : Z;
  consensus : Z;
  incentive : Z;
  inflation : Z;
  dividends : Z;
  last_update : Z;
  hotkey : string;
  ip_type : Z;
  ip : string;
  port : Z;
  modality : Z;
  coldkey : string;
  weights : list (Z * Q);
  bonds : list (Z * Q)
}.
End Neuron.

Module Endpoint.
Record t : Type := mk {
  uid : Z;
  hotkey : string;
  ip_type : Z;
  ip : string;
  port : Z;
  modality : Z;
  coldkey : string
}.
End Endpoint.

(** [self.subtensor]: the answers the ledger gives during one call. *)
Module Subtensor.
Record t : Type := mk {
  network : string;
  get_current_block : exn + Z;
  neurons : exn + list Neuron.t
}.
End Subtensor.

(** ** The metagraph object *)

Record Metagraph : Type := mkMetagraph {
  _parameters : gmap string tensor;
  _endpoint_objs : option (list Endpoint.t)
}.

(** [self.name = torch.nn.Parameter( t, requires_grad=False )] *)
Definition set_parameter (name : string) (t : tensor) : M Metagraph unit :=
  modify (fun self =>
    {| _parameters := <[name := t]> (_parameters self);
       _endpoint_objs := _endpoint_objs self |}).

(** [self._endpoint_objs = v] *)
Definition set_endpoint_objs (v : option (list Endpoint.t)) : M Metagraph unit :=
  modify (fun self =>
    {| _parameters := _parameters self; _endpoint_objs := v |}).

(** [self.name] *)
Definition getattr (name : string) : M Metagraph tensor :=
  self <- get ;;
  match _parameters self !! name with
  | Some t => ret t
  | None => raise (AttributeError name)
  end.

(** [self.state_dict()] *)
Definition state_dict (self : Metagraph) : gmap string tensor := _parameters self.

(** [state_dict[key]] *)
Definition getitem (sd : gmap string tensor) (key : string) : exn + tensor :=
  match sd !! key with
  | Some t => inr t
  | None => inl (KeyError key)
  end.

(** Entry [i] of the vector stored under [key], and row [i] of the matrix
    stored under [key]. *)
Definition entry (self : Metagraph) (key : string) (i : nat) : option Q :=
  match _parameters self !! key with
  | Some t => entries t !! i
  | None => None
  end.

Definition row (self : Metagraph) (key : string) (i : nat) : option (list Q) :=
  match _parameters self !! key with
  | Some t => rows t !! i
  | None => None
  end.

(** The keys [load_from_state_dict] reads. *)
Definition state_fields : list string :=
  ["version"; "n"; "tau"; "block"; "uids"; "stake"; "ranks"; "trust";
   "consensus"; "incentive"; "inflation"; "dividends"; "active";
   "lastupdate"; "weights"; "bonds"; "endpoints"].

(** The per-uid vectors [sync] assigns. *)
Definition synced_vectors : list string :=
  ["uids"; "active"; "stake"; "ranks"; "trust"; "consensus"; "incentive";
   "inflation"; "dividends"; "last_update"].

(** ** Sparse-to-dense conversion *)

(** Modelled from the spec: the writes of the converter of Section 4.2, one
    pair after the other, [row[peer_uid] = value]; a peer uid outside the row
    fails with [IndexOutOfRange]. *)
Fixpoint write_pairs (row : list Q) (pairs : list (Z * Q)) : exn + list Q :=
  match pairs with
  | [] => inr row
  | (peer_uid, value) :: rest =>
      if bool_decide (0 <= peer_uid < Z.of_nat (length row))%Z
      then write_pairs (<[Z.to_nat peer_uid := value]> row) rest
      else inl (IndexOutOfRange peer_uid)
  end.

(** Modelled from the spec: [bittensor.utils.weight_utils] is not among the
    sources.  Section 4.2: for each pair, writes [value] at index [peer_uid],
    stored as provided, no rescaling; all indices not present are 0; fails
    with [IndexOutOfRange] if any [peer_uid >= n] or [< 0].  The converter
    zips the uids and the values it is given. *)
Definition convert_weight_uids_and_vals_to_tensor
    (n : nat) (uids : list Z) (vals : list Q) : exn + list Q :=
  write_pairs (replicate n 0%Q) (zip uids vals).

(** ** The loop-carried lists of [sync] *)

Module Locals.
Record t : Type := mk {
  uids : list Q;
  active : list Q;
  stake : list Q;
  ranks : list Q;
  trust : list Q;
  consensus : list Q;
  incentive : list Q;
  inflation : list Q;
  dividends : list Q;
  last_updates : list Q;
  endpoints : list (list Q);
  weights : list (list Q);
  bonds : list (list Q)
}.

Definition empty : t := mk [] [] [] [] [] [] [] [] [] [] [] [] [].
End Locals.

(** ** Files and the logger *)

Inductive file : Type :=
| Pickle (metastate : gmap string tensor)   (* written by torch.save *)
| Malformed.                                (* bytes torch.load cannot read *)

Inductive log_event : Type :=
| LogWarning (msg : string)
| LogException (e : exn).

(** The object, the environment variable [HOME], the home directories of
    the users the system knows by name, the files and the log. *)
Record World : Type := mkWorld {
  self_ : Metagraph;
  home : string;
  passwd : gmap string string;
  filesystem : gmap string file;
  logger : list log_event
}.

(** Run a method of the metagraph object inside the world. *)
Definition on_self {A} (c : M Metagraph A) : M World A :=
  fun w =>
    match c (self_ w) with
    | (self', r) =>
        ({| self_ := self'; home := home w; passwd := passwd w;
            filesystem := filesystem w; logger := logger w |}, r)
    end.

Definition logger_warning (msg : string) : M World unit :=
  modify (fun w =>
    {| self_ := self_ w; home := home w; passwd := passwd w;
       filesystem := filesystem w;
       logger := logger w ++ [LogWarning msg] |}).

Definition logger_exception (e : exn) : M World unit :=
  modify (fun w =>
    {| self_ := self_ w; home := home w; passwd := passwd w;
       filesystem := filesystem w;
       logger := logger w ++ [LogException e] |}).

(** [s.rstrip('/')] *)
Fixpoint rstrip_slashes (s : string) : string :=
  match s with
  | EmptyString => EmptyString
  | String c rest =>
      match rstrip_slashes rest with
      | EmptyString =>
          if bool_decide (c = "/"%char) then EmptyString else String c EmptyString
      | stripped => String c stripped
      end
  end.

(** [s[:i], s[i:]] for [i] the position of the first slash of [s], or its
    length when it has none. *)
Fixpoint split_at_slash (s : string) : string * string :=
  match s with
  | EmptyString => (EmptyString, EmptyString)
  | String c rest =>
      if bool_decide (c = "/"%char) then (EmptyString, s)
      else let (name, tail) := split_at_slash rest in (String c name, tail)
  end.

(** [os.path.expanduser] with [HOME] set: a leading [~] is replaced by the
    home directory, a leading [~name] by the home directory of the user
    [name]; a path that names an unknown user, or does not begin with [~],
    is returned as it is. *)
Definition expanduser (passwd : gmap string string) (home path : string) : string :=
  match path with
  | String "~"%char rest =>
      let (name, tail) := split_at_slash rest in
      let userhome :=
        match name with
        | EmptyString => Some home
        | _ => passwd !! name
        end in
      match userhome with
      | Some userhome =>
          match rstrip_slashes userhome +:+ tail with
          | EmptyString => "/"
          | expanded => expanded
          end
      | None => path
      end
  | _ => path
  end.

(** The file system does not tell [a//b] from [a/b]. *)
Fixpoint collapse_slashes (p : string) : string :=
  match p with
  | EmptyString => EmptyString
  | String c rest =>
      match rest with
      | String c' _ =>
          if bool_decide (c = "/"%char /\ c' = "/"%char)
          then collapse_slashes rest
          else String c (collapse_slashes rest)
      | EmptyString => String c EmptyString
      end
  end.

(** [os.path.isfile( path )] *)
Definition isfile (w : World) (path : string) : bool :=
  bool_decide (is_Some (filesystem w !! collapse_slashes path)).

(** [torch.load( path )] *)
Definition torch_load (path : string) : M World (gmap string tensor) :=
  w <- get ;;
  match filesystem w !! collapse_slashes path with
  | None => raise (FileNotFoundError path)
  | Some Malformed => raise (UnpicklingError path)
  | Some (Pickle metastate) => ret metastate
  end.

(** [torch.save( metastate, path )] *)
Definition torch_save (metastate : gmap string tensor) (path : string) : M World unit :=
  modify (fun w =>
    {| self_ := self_ w; home := home w; passwd := passwd w;
       filesystem := <[collapse_slashes path := Pickle metastate]> (filesystem w);
       logger := logger w |}).

(** ** The methods of [Metagraph] *)

Section Methods.

(** What the rest of the [bittensor] package supplies: the version
    constant, the endpoint codec and the address formatter. *)
Variable __version_as_int__ : Z.
Variable to_tensor : Endpoint.t -> exn + list Z.
Variable from_tensor : tensor -> exn + Endpoint.t.
Variable ip__str__ : Z -> string -> Z -> string.

Definition clear : M Metagraph unit :=
  set_parameter "version" (tensor_of_list int64 [inject_Z __version_as_int__]) ;;
  set_parameter "n" (tensor_of_list int64 [0%Q]) ;;
  set_parameter "tau" (tensor_of_list float32 [(1 # 2)%Q]) ;;
  set_parameter "block" (tensor_of_list int64 [0%Q]) ;;
  set_parameter "stake" (tensor_of_list float32 []) ;;
  set_parameter "ranks" (tensor_of_list float32 []) ;;
  set_parameter "trust" (tensor_of_list float32 []) ;;
  set_parameter "consensus" (tensor_of_list float32 []) ;;
  set_parameter "incentive" (tensor_of_list float32 []) ;;
  set_parameter "inflation" (tensor_of_list float32 []) ;;
  set_parameter "dividends" (tensor_of_list float32 []) ;;
  set_parameter "active" (tensor_of_list int64 []) ;;
  set_parameter "lastupdate" (tensor_of_list int64 []) ;;
  set_parameter "weights" (tensor_of_list float32 []) ;;
  set_parameter "bonds" (tensor_of_list float32 []) ;;
  set_parameter "endpoints" (tensor_of_list int64 []) ;;
  set_endpoint_objs None.

(** [Metagraph( subtensor )]: a new object, cleared. *)
Definition init : Metagraph :=
  fst (clear {| _parameters := ∅; _endpoint_objs := None |}).

(** [self.n.item()] *)
Definition n_item : M Metagraph Q :=
  n <- getattr "n" ;; lift (item n).

Definition endpoint_objs : M Metagraph (list Endpoint.t) :=
  n <- n_item ;;
  if Qeq_bool n 0 then ret []
  else
    self <- get ;;
    match _endpoint_objs self with
    | Some objs => ret objs
    | None =>
        endpoints <- getattr "endpoints" ;;
        tensors <- lift (iter_tensor endpoints) ;;
        objs <- lift (comprehension from_tensor tensors) ;;
        set_endpoint_objs (Some objs) ;;
        ret objs
    end.

Definition hotkeys : M Metagraph (list string) :=
  n <- n_item ;;
  if Qeq_bool n 0 then ret []
  else objs <- endpoint_objs ;; ret (map Endpoint.hotkey objs).

Definition coldkeys : M Metagraph (list string) :=
  n <- n_item ;;
  if Qeq_bool n 0 then ret []
  else objs <- endpoint_objs ;; ret (map Endpoint.coldkey objs).

Definition modalities : M Metagraph (list Z) :=
  n <- n_item ;;
  if Qeq_bool n 0 then ret []
  else objs <- endpoint_objs ;; ret (map Endpoint.modality objs).

Definition addresses : M Metagraph (list string) :=
  n <- n_item ;;
  if Qeq_bool n 0 then ret []
  else
    objs <- endpoint_objs ;;
    ret (map (fun neuron =>
                ip__str__ (Endpoint.ip_type neuron) (Endpoint.ip neuron)
                          (Endpoint.port neuron)) objs).

(** [self.key = torch.nn.Parameter( state_dict[key], requires_grad=False )] *)
Definition load_field (sd : gmap string tensor) (key : string) : M Metagraph unit :=
  t <- lift (getitem sd key) ;; set_parameter key t.

Definition load_from_state_dict (sd : gmap string tensor) : M Metagraph unit :=
  load_field sd "version" ;;
  load_field sd "n" ;;
  load_field sd "tau" ;;
  load_field sd "block" ;;
  load_field sd "uids" ;;
  load_field sd "stake" ;;
  load_field sd "ranks" ;;
  load_field sd "trust" ;;
  load_field sd "consensus" ;;
  load_field sd "incentive" ;;
  load_field sd "inflation" ;;
  load_field sd "dividends" ;;
  load_field sd "active" ;;
  load_field sd "lastupdate" ;;
  load_field sd "weights" ;;
  load_field sd "bonds" ;;
  load_field sd "endpoints" ;;
  set_endpoint_objs None.

(** [bittensor.endpoint( uid = int(n.uid), hotkey = str(n.hotkey), ... )] *)
Definition endpoint_of (n : Neuron.t) : Endpoint.t :=
  {| Endpoint.uid := Neuron.uid n;
     Endpoint.hotkey := Neuron.hotkey n;
     Endpoint.ip_type := Neuron.ip_type n;
     Endpoint.ip := Neuron.ip n;
     Endpoint.port := Neuron.port n;
     Endpoint.modality := Neuron.modality n;
     Endpoint.coldkey := Neuron.coldkey n |}.

(** [self._endpoint_objs.append( endpoint )] *)
Definition endpoint_objs_append (endpoint : Endpoint.t) : M Metagraph unit :=
  self <- get ;;
  match _endpoint_objs self with
  | Some objs => set_endpoint_objs (Some (objs ++ [endpoint]))
  | None => raise (AttributeError "append")
  end.

(** The dense row of one pair list: the [if len(..) > 0 .. else ..] of the
    loop body, the unzipping of the pair list included. *)
Definition dense_row (n_total : nat) (pairs : list (Z * Q)) : exn + list Q :=
  if bool_decide (0 < length pairs)
  then
    let w_uids := map fst pairs in
    let w_weights := map snd pairs in
    convert_weight_uids_and_vals_to_tensor n_total w_uids w_weights
  else inr (replicate n_total 0%Q).

(** [float(1000000000)] *)
Definition billion : Q := inject_Z 1000000000.

(** One iteration of [for n in neurons]. *)
Definition sync_body (n_total : nat) (l : Locals.t) (n : Neuron.t)
  : M Metagraph Locals.t :=
  let endpoint := endpoint_of n in
  endpoint_objs_append endpoint ;;
  packed <- lift (to_tensor endpoint) ;;
  w <- lift (dense_row n_total (Neuron.weights n)) ;;
  b <- lift (dense_row n_total (Neuron.bonds n)) ;;
  ret {| Locals.uids := Locals.uids l ++ [inject_Z (Neuron.uid n)];
         Locals.active := Locals.active l ++ [inject_Z (Neuron.active n)];
         Locals.stake := Locals.stake l ++ [truediv (Neuron.stake n) billion];
         Locals.ranks := Locals.ranks l ++ [truediv (Neuron.rank n) billion];
         Locals.trust := Locals.trust l ++ [truediv (Neuron.trust n) billion];
         Locals.consensus :=
           Locals.consensus l ++ [truediv (Neuron.consensus n) billion];
         Locals.incentive :=
           Locals.incentive l ++ [truediv (Neuron.incentive n) billion];
         Locals.inflation :=
           Locals.inflation l ++ [truediv (Neuron.inflation n) billion];
         Locals.dividends := Locals.dividends l ++ [inject_Z (Neuron.dividends n)];
         Locals.last_updates :=
           Locals.last_updates l ++ [inject_Z (Neuron.last_update n)];
         Locals.endpoints := Locals.endpoints l ++ [map inject_Z packed];
         Locals.weights := Locals.weights l ++ [w];
         Locals.bonds := Locals.bonds l ++ [b] |}.

(** The two closing blocks of [sync]: "Set tensors" and "Set params".  The
    errors [torch.tensor] raises on an integer outside [int64] and on rows
    of unequal length are not modelled; what is proved of a pass that
    returned does not depend on them. *)
Definition set_tensors_and_params (n_total : nat) (block : Z) (l : Locals.t)
  : M Metagraph unit :=
  let tn := tensor_of_number float32 (inject_Z (Z.of_nat n_total)) in
  let tblock := tensor_of_number float32 (inject_Z block) in
  let tuids := tensor_of_list float32 (Locals.uids l) in
  let tactive := tensor_of_list float32 (Locals.active l) in
  let tstake := tensor_of_list float32 (Locals.stake l) in
  let tranks := tensor_of_list float32 (Locals.ranks l) in
  let ttrust := tensor_of_list float32 (Locals.trust l) in
  let tconsensus := tensor_of_list float32 (Locals.consensus l) in
  let tincentive := tensor_of_list float32 (Locals.incentive l) in
  let tinflation := tensor_of_list float32 (Locals.inflation l) in
  let tdividends := tensor_of_list float32 (Locals.dividends l) in
  let tlast_update := tensor_of_list int64 (Locals.last_updates l) in
  let tbonds := tensor_of_rows int64 (Locals.bonds l) in
  let tweights := tensor_of_rows float32 (Locals.weights l) in
  let tendpoints := tensor_of_rows int64 (Locals.endpoints l) in
  set_parameter "n" tn ;;
  set_parameter "block" tblock ;;
  set_parameter "uids" tuids ;;
  set_parameter "stake" tstake ;;
  set_parameter "ranks" tranks ;;
  set_parameter "trust" ttrust ;;
  set_parameter "consensus" tconsensus ;;
  set_parameter "incentive" tincentive ;;
  set_parameter "inflation" tinflation ;;
  set_parameter "dividends" tdividends ;;
  set_parameter "active" tactive ;;
  set_parameter "last_update" tlast_update ;;
  set_parameter "weights" tweights ;;
  set_parameter "bonds" tbonds ;;
  set_parameter "endpoints" tendpoints.

(** The [block] argument is rebound on the first line, as in the source. *)
Definition sync (subtensor : Subtensor.t) (block : option Z) : M Metagraph unit :=
  block <- lift (Subtensor.get_current_block subtensor) ;;
  neurons <- lift (Subtensor.neurons subtensor) ;;
  set_endpoint_objs (Some []) ;;
  let n_total := length neurons in
  l <- for_each (sync_body n_total) neurons Locals.empty ;;
  set_tensors_and_params n_total block l.

Definition load_from_path (path : string) : M World unit :=
  w <- get ;;
  let full_path := expanduser (passwd w) (home w) path in
  metastate <- torch_load full_path ;;
  on_self (load_from_state_dict metastate).

(** Directories and permissions are not modelled: [os.makedirs] has nothing
    to do and the write goes through.  What is proved of [save] is stated
    for a call that returned. *)
Definition save_to_path (path filename : string) : M World unit :=
  w <- get ;;
  let full_path := expanduser (passwd w) (home w) path in
  let metastate := state_dict (self_ w) in
  torch_save metastate (full_path +:+ "/" +:+ filename).

Definition load (subtensor : Subtensor.t) (network : option string) : M World unit :=
  try_except
    (let network :=
       match network with
       | None => Subtensor.network subtensor
       | Some name => name
       end in
     w <- get ;;
     let metagraph_path := "~/.bittensor/" +:+ network +:+ ".pt" in
     let metagraph_path := expanduser (passwd w) (home w) metagraph_path in
     if isfile w metagraph_path
     then load_from_path metagraph_path
     else logger_warning
            ("Did not load metagraph from path: " +:+ metagraph_path +:+
             ", file does not exist. Run metagraph.save() first."))
    (fun e => logger_exception e).

Definition save (subtensor : Subtensor.t) (network : option string) : M World unit :=
  let network :=
    match network with
    | None => Subtensor.network subtensor
    | Some name => name
    end in
  save_to_path "~/.bittensor/" (network +:+ ".pt").

End Methods.

(** ** A concrete endpoint codec and sample ledger answers *)

Module Sample.

(** A key as one integer: its bytes in base 256 behind a leading 1. *)
Definition key_code (s : string) : Z :=
  foldl (fun acc c => (acc * 256 + Z.of_N (N_of_ascii c))%Z) 1%Z
        (list_ascii_of_string s).

Fixpoint key_decode (fuel : nat) (z : Z) (acc : string) : exn + string :=
  match fuel with
  | O => inl EncodingError
  | S fuel' =>
      if bool_decide (z = 1)%Z then inr acc
      else if bool_decide (z <= 0)%Z then inl EncodingError
      else key_decode fuel' (z / 256)%Z
             (String (ascii_of_N (Z.to_N (z mod 256))) acc)
  end.

Definition key_of_code (z : Z) : exn + string :=
  key_decode (S (Z.to_nat (Z.log2 z))) z EmptyString.

(** Modelled from the spec: the Endpoint Codec is not among the sources.
    Section 4.1: [encode] produces a fixed-length integer sequence of 7
    fields (uid, identity key in a numeric encoding, address family, ip,
    port, modality, owner key in a numeric encoding). *)
Definition to_tensor (e : Endpoint.t) : exn + list Z :=
  inr [Endpoint.uid e; key_code (Endpoint.hotkey e); Endpoint.ip_type e;
       key_code (Endpoint.ip e); Endpoint.port e; Endpoint.modality e;
       key_code (Endpoint.coldkey e)].

(** Modelled from the spec: Section 4.1, [decode] is the exact inverse of
    [encode]. *)
Definition from_tensor (t : tensor) : exn + Endpoint.t :=
  match t with
  | T1 [uid; hotkey; ip_type; ip; port; modality; coldkey] =>
      match key_of_code (Qtrunc hotkey), key_of_code (Qtrunc ip),
            key_of_code (Qtrunc coldkey) with
      | inr h, inr i, inr c =>
          inr {| Endpoint.uid := Qtrunc uid; Endpoint.hotkey := h;
                 Endpoint.ip_type := Qtrunc ip_type; Endpoint.ip := i;
                 Endpoint.port := Qtrunc port;
                 Endpoint.modality := Qtrunc modality;
                 Endpoint.coldkey := c |}
      | _, _, _ => inl EncodingError
      end
  | _ => inl EncodingError
  end.

(** Modelled from the spec: [bittensor.utils.networking.ip__str__] is not
    among the sources.  Section 3: addresses are formatted
    "family:ip:port" strings. *)
Definition ip__str__ (ip_type : Z) (ip : string) (port : Z) : string :=
  pretty ip_type +:+ ":" +:+ ip +:+ ":" +:+ pretty port.

Definition version : Z := 100.

Definition neuron (uid stake last_update : Z) (hotkey : string)
    (weights bonds : list (Z * Q)) : Neuron.t :=
  {| Neuron.uid := uid; Neuron.active := 1; Neuron.stake := stake;
     Neuron.rank := 0; Neuron.trust := 0; Neuron.consensus := 0;
     Neuron.incentive := 0; Neuron.inflation := 0; Neuron.dividends := 0;
     Neuron.last_update := last_update; Neuron.hotkey := hotkey;
     Neuron.ip_type := 4; Neuron.ip := "10.0.0.1"; Neuron.port := 8091;
     Neuron.modality := 0; Neuron.coldkey := "cold";
     Neuron.weights := weights; Neuron.bonds := bonds |}.

Definition ledger (block : Z) (neurons : list Neuron.t) : Subtensor.t :=
  {| Subtensor.network := "kusanagi";
     Subtensor.get_current_block := inr block;
     Subtensor.neurons := inr neurons |}.

(** The end-to-end scenario of the specification: two neurons, the first
    with one weight on the second. *)
Definition two_neurons : list Neuron.t :=
  [ neuron 0 1000000000 7 "hk0" [(1%Z, (3 # 10)%Q)] [];
    neuron 1 500000000 9 "hk1" [] [] ].

(** The same population where the second neuron names a peer outside it. *)
Definition inconsistent_neurons : list Neuron.t :=
  [ neuron 0 1 11 "hkA" [] [];
    neuron 1 2 12 "hkB" [(5%Z, 1%Q)] [] ].

(** One neuron that names the same peer twice. *)
Definition repeated_peer : Neuron.t :=
  neuron 0 1 1 "hk0" [(0%Z, 1%Q); (0%Z, 2%Q)] [].

(** One neuron whose bond is not a whole number. *)
Definition fractional_bond : Neuron.t :=
  neuron 0 1 1 "hk0" [] [(0%Z, (1 # 2)%Q)].

(** One neuron whose stake is 1 and whose dividends are 123456789. *)
Definition inexact_scores : Neuron.t :=
  {| Neuron.uid := 0; Neuron.active := 1; Neuron.stake := 1;
     Neuron.rank := 0; Neuron.trust := 0; Neuron.consensus := 0;
     Neuron.incentive := 0; Neuron.inflation := 0;
     Neuron.dividends := 123456789;
     Neuron.last_update := 1; Neuron.hotkey := "hk0";
     Neuron.ip_type := 4; Neuron.ip := "10.0.0.1"; Neuron.port := 8091;
     Neuron.modality := 0; Neuron.coldkey := "cold";
     Neuron.weights := []; Neuron.bonds := [] |}.

Definition world (self : Metagraph) (files : gmap string file) : World :=
  {| self_ := self; home := "/home/user"; passwd := ∅; filesystem := files;
     logger := [] |}.

(** A new object, and the same object after one pass over [two_neurons]. *)
Definition fresh : Metagraph := init version.

Definition synced : Metagraph :=
  (sync to_tensor (ledger 42 two_neurons) None fresh).1.

(** A new object that received the bundle of [synced]. *)
Definition reloaded : Metagraph :=
  (load_from_state_dict (state_dict synced) fresh).1.

(** [synced] after a second pass, over [inconsistent_neurons]. *)
Definition after_failed_sync : Metagraph :=
  (sync to_tensor (ledger 43 inconsistent_neurons) None synced).1.

(** Where [load] looks for the network of [ledger]. *)
Definition path : string := "/home/user/.bittensor/kusanagi.pt".

End Sample.

(** ** The loop of [sync], in closed form *)

(** The locals once the loop has gone through [ns], given the packed
    endpoints [es] and the dense rows [ws] and [bs] it computed. *)
Definition extend (l : Locals.t) (ns : list Neuron.t) (es ws bs : list (list Q))
  : Locals.t :=
  {| Locals.uids := Locals.uids l ++ map (fun n => inject_Z (Neuron.uid n)) ns;
     Locals.active := Locals.active l ++ map (fun n => inject_Z (Neuron.active n)) ns;
     Locals.stake :=
       Locals.stake l ++ map (fun n => truediv (Neuron.stake n) billion) ns;
     Locals.ranks :=
       Locals.ranks l ++ map (fun n => truediv (Neuron.rank n) billion) ns;
     Locals.trust :=
       Locals.trust l ++ map (fun n => truediv (Neuron.trust n) billion) ns;
     Locals.consensus :=
       Locals.consensus l
       ++ map (fun n => truediv (Neuron.consensus n) billion) ns;
     Locals.incentive :=
       Locals.incentive l
       ++ map (fun n => truediv (Neuron.incentive n) billion) ns;
     Locals.inflation :=
       Locals.inflation l
       ++ map (fun n => truediv (Neuron.inflation n) billion) ns;
     Locals.dividends :=
       Locals.dividends l ++ map (fun n => inject_Z (Neuron.dividends n)) ns;
     Locals.last_updates :=
       Locals.last_updates l ++ map (fun n => inject_Z (Neuron.last_update n)) ns;
     Locals.endpoints := Locals.endpoints l ++ es;
     Locals.weights := Locals.weights l ++ ws;
     Locals.bonds := Locals.bonds l ++ bs |}.

(** What a successful pass computed for each neuron. *)
Definition packed_as (to_tensor : Endpoint.t -> exn + list Z)
    (n : Neuron.t) (e : list Q) : Prop :=
  exists packed, to_tensor (endpoint_of n) = inr packed /\ e = map inject_Z packed.

Definition weights_row_of (n_total : nat) (n : Neuron.t) (w : list Q) : Prop :=
  dense_row n_total (Neuron.weights n) = inr w.

Definition bonds_row_of (n_total : nat) (n : Neuron.t) (b : list Q) : Prop :=
  dense_row n_total (Neuron.bonds n) = inr b.

(** ** Names used by [load] *)

(** [network], or [self.subtensor.network] when it is [None]. *)
Definition network_name (subtensor : Subtensor.t) (network : option string) : string :=
  match network with
  | None => Subtensor.network subtensor
  | Some name => name
  end.

(** The path [load] looks at.  It begins with [~/], so that no user is
    looked up by name. *)
Definition metagraph_path (home name : string) : string :=
  expanduser ∅ home ("~/.bittensor/" +:+ name +:+ ".pt").

(** The world after one more line was logged. *)
Definition logged (w : World) (ev : log_event) : World :=
  {| self_ := self_ w; home := home w; passwd := passwd w;
     filesystem := filesystem w;
     logger := logger w ++ [ev] |}.

(** Every key of [keys] is bound in the bundle. *)
Definition has_fields (keys : list string) (sd : gmap string tensor) : Prop :=
  Forall (fun key => is_Some (sd !! key)) keys.

(** The keys [clear] assigns. *)
Definition cleared_fields : list string :=
  ["version"; "n"; "tau"; "block"; "stake"; "ranks"; "trust"; "consensus";
   "incentive"; "inflation"; "dividends"; "active"; "lastupdate"; "weights";
   "bonds"; "endpoints"].

(** The assignments of [load_from_state_dict] as a loop over their keys. *)
Fixpoint load_fields (sd : gmap string tensor) (keys : list string) : M Metagraph unit :=
  match keys with
  | [] => ret tt
  | key :: keys' => load_field sd key ;; load_fields sd keys'
  end.

(** A record the loop body accepts in a population of [n_total]: its endpoint
    can be packed and its pairs name peers of the population. *)
Definition well_formed (to_tensor : Endpoint.t -> exn + list Z) (n_total : nat)
    (n : Neuron.t) : Prop :=
  (exists packed, to_tensor (endpoint_of n) = inr packed) /\
  Forall (fun p => (0 <= p.1 < Z.of_nat n_total)%Z) (Neuron.weights n) /\
  Forall (fun p => (0 <= p.1 < Z.of_nat n_total)%Z) (Neuron.bonds n).

(** ** The miner that uses the metagraph *)

(** [xs.index( x )]: the first position of [x], or [ValueError]. *)
Fixpoint list_index (x : string) (xs : list string) : exn + nat :=
  match xs with
  | [] => inl ValueError
  | y :: ys =>
      if bool_decide (y = x) then inr 0
      else match list_index x ys with
           | inl e => inl e
           | inr i => inr (S i)
           end
  end.

(** [t[ uid ].item()]: torch's [IndexError] on an index past the end is
    rendered by [IndexOutOfRange]. *)
Definition tensor_at (t : tensor) (uid : nat) : exn + Q :=
  match t with
  | T0 _ => inl (IndexOutOfRange (Z.of_nat uid))
  | T1 v =>
      match v !! uid with
      | Some x => inr x
      | None => inl (IndexOutOfRange (Z.of_nat uid))
      end
  | T2 m =>
      match m !! uid with
      | Some r => item (T1 r)
      | None => inl (IndexOutOfRange (Z.of_nat uid))
      end
  end.

Section Miner.

Variable __version_as_int__ : Z.
Variable to_tensor : Endpoint.t -> exn + list Z.
Variable from_tensor : tensor -> exn + Endpoint.t.

(** [bittensor.metagraph( subtensor ).load().sync().save()], the first
    statement of the miner about its metagraph. *)
Definition startup (subtensor : Subtensor.t) : M World unit :=
  on_self (modify (fun _ => init __version_as_int__)) ;;
  load subtensor None ;;
  on_self (sync to_tensor subtensor None) ;;
  save subtensor None.

(** One turn of the miner's loop, up to the values it logs: the stake, rank
    and incentive at the position of the wallet's hotkey. *)
Definition report (subtensor : Subtensor.t) (ss58_address : string)
  : M World (Q * Q * Q) :=
  on_self (sync to_tensor subtensor None) ;;
  save subtensor None ;;
  keys <- on_self (hotkeys from_tensor) ;;
  uid <- lift (list_index ss58_address keys) ;;
  S <- on_self (getattr "stake") ;;
  stake <- lift (tensor_at S uid) ;;
  R <- on_self (getattr "ranks") ;;
  rank <- lift (tensor_at R uid) ;;
  I <- on_self (getattr "incentive") ;;
  incentive <- lift (tensor_at I uid) ;;
  ret (stake, rank, incentive).

End Miner.

(** The keys the closing block of [sync] assigns. *)
Definition synced_fields : list string :=
  ["n"; "block"; "uids"; "stake"; "ranks"; "trust"; "consensus"; "incentive";
   "inflation"; "dividends"; "active"; "last_update"; "weights"; "bonds";
   "endpoints"].

(** ** Notions used to state further properties *)

(** [self.n.item()] returns [x]. *)
Definition n_reads (self : Metagraph) (x : Q) : Prop :=
  exists t, _parameters self !! "n" = Some t /\ item t = inr x.
(** The codec gives back the endpoint of a record from its packed form. *)
Definition decodable (to_tensor : Endpoint.t -> exn + list Z)
    (from_tensor : tensor -> exn + Endpoint.t) (n : Neuron.t) : Prop :=
  exists packed,
    to_tensor (endpoint_of n) = inr packed /\
    from_tensor (T1 (map inject_Z packed)) = inr (endpoint_of n).
(** The world with another metagraph object in it. *)
Definition with_self (w : World) (self : Metagraph) : World :=
  {| self_ := self; home := home w; passwd := passwd w;
     filesystem := filesystem w;
     logger := logger w |}.

(** The world after [torch.save] wrote a bundle at a path. *)
Definition with_file (w : World) (path : string) (sd : gmap string tensor) : World :=
  {| self_ := self_ w; home := home w; passwd := passwd w;
     filesystem := <[collapse_slashes path := Pickle sd]> (filesystem w);
     logger := logger w |}.

(** The numbers for which the stored value is that of the machine: below
    2^63 an integer fits [int64], and a [float32] is finite. *)
Definition ledger_integer (z : Z) : Prop := (Z.abs z < 2 ^ 63)%Z.

Definition ledger_value (v : Q) : Prop := (Qabs v < inject_Z (2 ^ 63))%Q.

(** The path [save] writes to. *)
Definition saved_path (home name : string) : string :=
  expanduser ∅ home "~/.bittensor/" +:+ "/" +:+ name +:+ ".pt".

(** * Properties *)

(** ** Binary rounding of whole numbers *)

Lemma round_half_even_unit (a : Z) : round_half_even a 1 = a.
Proof.
  unfold round_half_even. by rewrite Z.div_1_r, Z.mod_1_r.
Qed.

Lemma round_half_even_floor (a b : Z) : (a / b <= round_half_even a b)%Z.
Proof.
  unfold round_half_even.
  destruct (2 * (a mod b) ?= b)%Z; [destruct (Z.even _)|..]; lia.
Qed.

Lemma Qred_inject_Z (z : Z) : Qred (inject_Z z) = inject_Z z.
Proof.
  unfold Qred, inject_Z.
  pose proof (Z.ggcd_gcd z 1) as Hg.
  pose proof (Z.ggcd_correct_divisors z 1) as Hd.
  destruct (Z.ggcd z 1) as [g [a b]]. simpl in Hg, Hd.
  rewrite Z.gcd_1_r in Hg. subst g. destruct Hd as [Ha Hb].
  replace a with z by lia. replace b with 1%Z by lia. reflexivity.
Qed.

Lemma Qred_scaled (z k : Z) :
  (0 < k)%Z -> Qred (Qmake (z * 2 ^ k) (Z.to_pos (2 ^ k))) = inject_Z z.
Proof.
  intros Hk. rewrite <- Qred_inject_Z. apply Qred_complete.
  unfold Qeq. simpl. rewrite Z2Pos.id by (apply Z.pow_pos_nonneg; lia). lia.
Qed.

(** Rounding a whole number gives a whole number. *)
Lemma binary_round_integer (prec emin z : Z) :
  (0 < prec)%Z -> (emin <= 0)%Z ->
  binary_round prec emin (inject_Z z)
  = inject_Z (let e := Z.max (Z.log2 (Z.abs z) - (prec - 1)) emin in
              if (0 <=? e)%Z then round_half_even z (2 ^ e) * 2 ^ e else z).
Proof.
  intros Hp He. unfold binary_round. cbn [Qnum Qden inject_Z].
  destruct (Z.eqb_spec z 0) as [->|Hz].
  - cbv zeta. change (Z.log2 (Z.abs 0)) with 0%Z.
    destruct (Z.leb_spec 0 (Z.max (0 - (prec - 1)) emin)) as [H|H]; [|done].
    replace (Z.max (0 - (prec - 1)) emin) with 0%Z by lia.
    by rewrite round_half_even_unit.
  - assert (Hlog : ilog2 (inject_Z z) = Z.log2 (Z.abs z)).
    { unfold ilog2. cbn [Qnum Qden inject_Z].
      destruct (Z.leb_spec 1 (Z.abs z)) as [H|H]; [|lia].
      by rewrite Z.div_1_r. }
    rewrite Hlog. cbv zeta.
    set (e := Z.max _ emin).
    unfold scale2.
    destruct (Z.leb_spec 0 e) as [H|H].
    + rewrite Qred_inject_Z. by rewrite Z.mul_1_l.
    + rewrite round_half_even_unit. apply Qred_scaled. lia.
Qed.

(** It is exact on a whole number of at most [prec] bits. *)
Lemma binary_round_exact (prec emin z : Z) :
  (0 < prec)%Z -> (emin <= 0)%Z -> (Z.abs z < 2 ^ prec)%Z ->
  binary_round prec emin (inject_Z z) = inject_Z z.
Proof.
  intros Hp He Hz. rewrite binary_round_integer by done. cbv zeta. f_equal.
  destruct (Z.leb_spec 0 (Z.max (Z.log2 (Z.abs z) - (prec - 1)) emin)) as [H|H];
    [|done].
  assert (Hlog : (Z.log2 (Z.abs z) < prec)%Z).
  { destruct (Z.eq_dec z 0%Z) as [->|Hne]; [simpl; lia|].
    apply Z.log2_lt_pow2; lia. }
  replace (Z.max _ emin) with 0%Z by lia.
  rewrite round_half_even_unit. lia.
Qed.

(** It keeps a positive whole number positive. *)
Lemma binary_round_positive (prec emin z : Z) :
  (0 < prec)%Z -> (emin <= 0)%Z -> (1 <= z)%Z ->
  exists z', (1 <= z')%Z /\ binary_round prec emin (inject_Z z) = inject_Z z'.
Proof.
  intros Hp He Hz. rewrite binary_round_integer by done. cbv zeta.
  eexists. split; [|reflexivity].
  set (e := Z.max _ emin).
  destruct (Z.leb_spec 0 e) as [H|H]; [|done].
  assert (Hle : (e <= Z.log2 z)%Z).
  { unfold e. rewrite Z.abs_eq by lia. pose proof (Z.log2_nonneg z). lia. }
  assert (Hpow : (2 ^ e <= z)%Z).
  { transitivity (2 ^ Z.log2 z)%Z.
    - apply Z.pow_le_mono_r; lia.
    - apply Z.log2_spec. lia. }
  assert (0 < 2 ^ e)%Z by (apply Z.pow_pos_nonneg; lia).
  pose proof (round_half_even_floor z (2 ^ e)).
  assert (1 <= z / 2 ^ e)%Z by (apply Z.div_le_lower_bound; lia).
  nia.
Qed.

(** Zero is stored as zero, whatever the type. *)
Lemma cast_zero (dt : dtype) : cast dt 0 = 0%Q.
Proof. by destruct dt. Qed.

(** A whole number of magnitude below 2^24 is a [float32]. *)
Lemma cast_float32_exact (z : Z) :
  (Z.abs z < 2 ^ 24)%Z -> cast float32 (inject_Z z) = inject_Z z.
Proof.
  intros Hz. unfold cast, binary32, binary64.
  rewrite (binary_round_exact 53) by lia.
  by apply binary_round_exact.
Qed.

(** From 2^24 on whole numbers are rounded, and so are most fractions:
    2^24 + 1 is stored as 2^24, 123456789 as 123456792, and three tenths as
    5033165/16777216. *)
Example cast_float32_rounds :
  cast float32 (inject_Z (2 ^ 24 + 1)) = inject_Z (2 ^ 24) /\
  cast float32 (inject_Z 123456789) = inject_Z 123456792 /\
  cast float32 (3 # 10) = (5033165 # 16777216)%Q.
Proof. repeat split; vm_compute; reflexivity. Qed.

(** The [float32] of a population is zero for the empty population only. *)
Lemma Qeq_bool_population (k : nat) :
  Qeq_bool (cast float32 (inject_Z (Z.of_nat k))) 0 = bool_decide (k = 0).
Proof.
  destruct k as [|k]; [reflexivity|].
  rewrite bool_decide_eq_false_2 by done.
  unfold cast, binary32, binary64.
  destruct (binary_round_positive 53 (-1074) (Z.of_nat (S k)))
    as (z1 & Hz1 & ->); [lia..|].
  destruct (binary_round_positive 24 (-149) z1) as (z2 & Hz2 & ->); [lia..|].
  destruct (Qeq_bool (inject_Z z2) 0) eqn:H; [|done].
  apply Qeq_bool_eq in H. unfold Qeq in H. simpl in H. lia.
Qed.

(** ** Rational sums *)

Lemma Qsum_app (l1 l2 : list Q) : (Qsum (l1 ++ l2) == Qsum l1 + Qsum l2)%Q.
Proof.
  induction l1 as [|x l1 IH]; simpl.
  - ring.
  - rewrite IH. ring.
Qed.

Lemma Qsum_replicate_zero (n : nat) : (Qsum (replicate n 0%Q) == 0)%Q.
Proof.
  induction n as [|n IH]; simpl; [reflexivity|].
  rewrite IH. ring.
Qed.

(** Overwriting a zero entry adds the written value to the sum. *)
Lemma Qsum_insert_zero (l : list Q) (i : nat) (v : Q) :
  l !! i = Some 0%Q -> (Qsum (<[i := v]> l) == Qsum l + v)%Q.
Proof.
  revert i. induction l as [|x l IH]; intros [|i] Hi; simpl in *; try discriminate.
  - injection Hi as ->. ring.
  - rewrite (IH i Hi). ring.
Qed.

(** ** The sparse-to-dense converter *)

Lemma write_pairs_length (pairs : list (Z * Q)) (row0 dense : list Q) :
  write_pairs row0 pairs = inr dense -> length dense = length row0.
Proof.
  revert row0. induction pairs as [|[u v] rest IH]; intros row0 H; simpl in H.
  - by injection H as <-.
  - case_bool_decide; [|discriminate].
    rewrite (IH _ H). apply length_insert.
Qed.

(** Success means every peer uid was in range. *)
Lemma write_pairs_in_range (pairs : list (Z * Q)) (row0 dense : list Q) :
  write_pairs row0 pairs = inr dense ->
  Forall (fun p => (0 <= p.1 < Z.of_nat (length row0))%Z) pairs.
Proof.
  revert row0. induction pairs as [|[u v] rest IH]; intros row0 H; simpl in H.
  - constructor.
  - case_bool_decide; [|discriminate].
    constructor; [done|].
    specialize (IH _ H). rewrite length_insert in IH. exact IH.
Qed.

(** And every in-range pair list is converted. *)
Lemma write_pairs_total (pairs : list (Z * Q)) (row0 : list Q) :
  Forall (fun p => (0 <= p.1 < Z.of_nat (length row0))%Z) pairs ->
  exists dense, write_pairs row0 pairs = inr dense.
Proof.
  revert row0. induction pairs as [|[u v] rest IH]; intros row0 H; simpl.
  - eauto.
  - inversion H as [|? ? Hu Hrest]; subst. simpl in Hu.
    rewrite bool_decide_eq_true_2 by done.
    apply IH. by rewrite length_insert.
Qed.

(** With pairwise distinct peer uids that all point at zero entries, the
    row gains exactly the written values. *)
Lemma write_pairs_sum (pairs : list (Z * Q)) (row0 dense : list Q) :
  write_pairs row0 pairs = inr dense ->
  NoDup (map fst pairs) ->
  (forall u, u ∈ map fst pairs -> row0 !! Z.to_nat u = Some 0%Q) ->
  (Qsum dense == Qsum row0 + Qsum (map snd pairs))%Q.
Proof.
  revert row0. induction pairs as [|[u v] rest IH]; intros row0 H Hnd Hz; simpl in *.
  - injection H as <-. ring.
  - case_bool_decide as Hu; [|discriminate].
    apply NoDup_cons in Hnd as [Hnotin Hnd].
    rewrite (IH _ H Hnd).
    + rewrite Qsum_insert_zero by (apply Hz; left). ring.
    + intros u' Hu'.
      assert (u' <> u) by (intros ->; contradiction).
      assert (0 <= u')%Z.
      { apply write_pairs_in_range in H.
        apply list_elem_of_fmap in Hu' as [[a b] [-> Hin]].
        rewrite Forall_forall in H. apply H in Hin. simpl in *. lia. }
      rewrite list_lookup_insert_ne by lia.
      apply Hz. by right.
Qed.

(** The cast of a converted row is the conversion of the cast values. *)
Lemma write_pairs_fmap (f : Q -> Q) (pairs : list (Z * Q)) (row0 dense : list Q) :
  write_pairs row0 pairs = inr dense ->
  write_pairs (map f row0) (map (fun p => (p.1, f p.2)) pairs) = inr (map f dense).
Proof.
  revert row0. induction pairs as [|[u v] rest IH]; intros row0 H; simpl in *.
  - by injection H as <-.
  - rewrite length_map. case_bool_decide; [|discriminate].
    rewrite <- list_fmap_insert. by apply IH.
Qed.

Lemma zip_unzip (pairs : list (Z * Q)) : zip (map fst pairs) (map snd pairs) = pairs.
Proof.
  induction pairs as [|[u v] rest IH]; simpl; [done|]. by rewrite IH.
Qed.

Lemma cast_int64_integer (z : Z) : cast int64 (inject_Z z) = inject_Z z.
Proof.
  unfold cast, Qtrunc. simpl. by rewrite Z.quot_1_r.
Qed.

Lemma dense_row_empty (n_total : nat) :
  dense_row n_total [] = inr (replicate n_total 0%Q).
Proof. reflexivity. Qed.

Lemma dense_row_length (n_total : nat) (pairs : list (Z * Q)) (dense : list Q) :
  dense_row n_total pairs = inr dense -> length dense = n_total.
Proof.
  unfold dense_row, convert_weight_uids_and_vals_to_tensor.
  case_bool_decide as Hlen; intros H.
  - apply write_pairs_length in H. by rewrite length_replicate in H.
  - injection H as <-. apply length_replicate.
Qed.

Lemma dense_row_sum (n_total : nat) (pairs : list (Z * Q)) (dense : list Q) :
  dense_row n_total pairs = inr dense ->
  NoDup (map fst pairs) ->
  (Qsum dense == Qsum (map snd pairs))%Q.
Proof.
  unfold dense_row, convert_weight_uids_and_vals_to_tensor.
  case_bool_decide as Hlen; intros H Hnd.
  - rewrite zip_unzip in H.
    rewrite (write_pairs_sum _ _ _ H Hnd).
    + rewrite Qsum_replicate_zero. ring.
    + intros u Hu. apply lookup_replicate_2.
      apply write_pairs_in_range in H.
      apply list_elem_of_fmap in Hu as [[a b] [-> Hin]].
      rewrite Forall_forall in H. apply H in Hin.
      rewrite length_replicate in Hin. simpl in *. lia.
  - injection H as <-. destruct pairs; simpl in *; [|lia].
    apply Qsum_replicate_zero.
Qed.

(** Storing a dense row in a tensor is the same as converting the values
    as they will be stored. *)
Lemma dense_row_cast (dt : dtype) (n_total : nat) (pairs : list (Z * Q))
    (dense : list Q) :
  dense_row n_total pairs = inr dense ->
  dense_row n_total (map (fun p => (p.1, cast dt p.2)) pairs)
  = inr (map (cast dt) dense).
Proof.
  unfold dense_row, convert_weight_uids_and_vals_to_tensor.
  rewrite length_map. case_bool_decide as Hlen; intros H.
  - rewrite zip_unzip in *.
    apply (write_pairs_fmap (cast dt)) in H.
    by rewrite fmap_replicate, cast_zero in H.
  - injection H as <-. by rewrite fmap_replicate, cast_zero.
Qed.

(** ** The loop of [sync] *)

Section Sync_loop.

Variable to_tensor : Endpoint.t -> exn + list Z.

Lemma extend_nil (l : Locals.t) : extend l [] [] [] [] = l.
Proof.
  destruct l. unfold extend. simpl. by rewrite !app_nil_r.
Qed.

(** One iteration either raises, or appends one element to every list and
    one endpoint object to the cache. *)
Lemma sync_body_ok (n_total : nat) (l l' : Locals.t) (n : Neuron.t)
    (self self' : Metagraph) :
  sync_body to_tensor n_total l n self = (self', inr l') ->
  exists objs e w b,
    _endpoint_objs self = Some objs /\
    self' = {| _parameters := _parameters self;
               _endpoint_objs := Some (objs ++ [endpoint_of n]) |} /\
    packed_as to_tensor n e /\
    weights_row_of n_total n w /\
    bonds_row_of n_total n b /\
    l' = extend l [n] [e] [w] [b].
Proof.
  unfold sync_body, endpoint_objs_append, set_endpoint_objs, bind, get,
    modify, lift, raise, ret, packed_as, weights_row_of, bonds_row_of.
  destruct (_endpoint_objs self) as [objs|]; [|discriminate]. simpl.
  destruct (to_tensor (endpoint_of n)) as [?|packed]; [discriminate|].
  destruct (dense_row n_total (Neuron.weights n)) as [?|w]; [discriminate|].
  destruct (dense_row n_total (Neuron.bonds n)) as [?|b]; [discriminate|].
  intros [= <- <-]. exists objs, (map inject_Z packed), w, b. eauto 10.
Qed.

(** Whatever one iteration does, it leaves the parameters alone. *)
Lemma sync_body_parameters (n_total : nat) (l : Locals.t) (n : Neuron.t)
    (self : Metagraph) :
  _parameters (sync_body to_tensor n_total l n self).1 = _parameters self.
Proof.
  unfold sync_body, endpoint_objs_append, set_endpoint_objs, bind, get,
    modify, lift, raise, ret.
  destruct (_endpoint_objs self) as [objs|]; simpl; [|done].
  destruct (to_tensor (endpoint_of n)) as [?|packed]; [done|].
  destruct (dense_row n_total (Neuron.weights n)) as [?|w]; [done|].
  destruct (dense_row n_total (Neuron.bonds n)) as [?|b]; done.
Qed.

Lemma sync_loop_parameters (n_total : nat) (ns : list Neuron.t) (l : Locals.t)
    (self : Metagraph) :
  _parameters (for_each (sync_body to_tensor n_total) ns l self).1
  = _parameters self.
Proof.
  revert l self. induction ns as [|n ns IH]; intros l self; simpl; [done|].
  unfold bind.
  pose proof (sync_body_parameters n_total l n self) as Hbody.
  destruct (sync_body to_tensor n_total l n self) as [mid [e|l1]]; simpl in *.
  - done.
  - by rewrite IH.
Qed.

Lemma sync_loop_ok (n_total : nat) (ns : list Neuron.t) (l l' : Locals.t)
    (self self' : Metagraph) :
  for_each (sync_body to_tensor n_total) ns l self = (self', inr l') ->
  exists es ws bs,
    l' = extend l ns es ws bs /\
    Forall2 (packed_as to_tensor) ns es /\
    Forall2 (weights_row_of n_total) ns ws /\
    Forall2 (bonds_row_of n_total) ns bs /\
    _parameters self' = _parameters self /\
    _endpoint_objs self'
    = (fun objs => objs ++ map endpoint_of ns) <$> _endpoint_objs self.
Proof.
  revert l self. induction ns as [|n ns IH]; intros l self H; simpl in H.
  - injection H as <- <-. exists [], [], [].
    rewrite extend_nil. repeat split; try constructor.
    destruct (_endpoint_objs self); simpl; [|done]. by rewrite app_nil_r.
  - unfold bind in H.
    destruct (sync_body to_tensor n_total l n self) as [mid [e|l1]] eqn:Hbody;
      [discriminate|].
    apply sync_body_ok in Hbody
      as (objs & e & w & b & Hobjs & -> & He & Hw & Hb & ->).
    apply IH in H as (es & ws & bs & -> & Hes & Hws & Hbs & Hpar & Hcache).
    exists (e :: es), (w :: ws), (b :: bs).
    split; [|repeat split; try (by constructor)].
    + unfold extend. simpl. by rewrite <- !app_assoc.
    + done.
    + rewrite Hcache, Hobjs. simpl. by rewrite <- app_assoc.
Qed.

End Sync_loop.

(** ** What [sync] leaves behind *)

(** Reads a parameter back out of the assignments that close [sync]. *)
Ltac read_parameter :=
  unfold set_tensors_and_params, set_parameter, bind, modify; cbn [fst snd _parameters];
  repeat (rewrite lookup_insert_ne by discriminate);
  rewrite lookup_insert_eq.

Section Sync_facts.

Variable to_tensor : Endpoint.t -> exn + list Z.

(** A successful pass: both ledger queries answered, every neuron was
    converted, and the object is the old one with the new tensors assigned
    and the cache holding one endpoint object per neuron. *)
Lemma sync_ok (subtensor : Subtensor.t) (block : option Z) (self self' : Metagraph) :
  sync to_tensor subtensor block self = (self', inr tt) ->
  exists blk ns es ws bs,
    Subtensor.get_current_block subtensor = inr blk /\
    Subtensor.neurons subtensor = inr ns /\
    Forall2 (packed_as to_tensor) ns es /\
    Forall2 (weights_row_of (length ns)) ns ws /\
    Forall2 (bonds_row_of (length ns)) ns bs /\
    self' = (set_tensors_and_params (length ns) blk
               (extend Locals.empty ns es ws bs)
               {| _parameters := _parameters self;
                  _endpoint_objs := Some (map endpoint_of ns) |}).1.
Proof.
  unfold sync, bind at 1 2 3 4, lift, set_endpoint_objs, modify.
  destruct (Subtensor.get_current_block subtensor) as [?|blk]; [discriminate|].
  destruct (Subtensor.neurons subtensor) as [?|ns]; [discriminate|].
  cbn [_parameters].
  destruct (for_each _ ns Locals.empty _) as [mid [e|l]] eqn:Hloop; [discriminate|].
  apply sync_loop_ok in Hloop as (es & ws & bs & -> & Hes & Hws & Hbs & Hpar & Hcache).
  simpl in Hpar, Hcache.
  intros H. exists blk, ns, es, ws, bs. repeat split; try done.
  destruct mid as [params cache]. simpl in *. subst.
  by injection H as <-.
Qed.

(** A failing pass leaves every parameter as it was. *)
Lemma sync_raise_parameters (subtensor : Subtensor.t) (block : option Z)
    (self self' : Metagraph) (e : exn) :
  sync to_tensor subtensor block self = (self', inl e) ->
  _parameters self' = _parameters self.
Proof.
  unfold sync, bind at 1 2 3 4, lift, set_endpoint_objs, modify.
  destruct (Subtensor.get_current_block subtensor) as [?|blk];
    [by intros [= <- _]|].
  destruct (Subtensor.neurons subtensor) as [?|ns]; [by intros [= <- _]|].
  pose proof (sync_loop_parameters to_tensor (length ns) ns Locals.empty
                {| _parameters := _parameters self; _endpoint_objs := Some [] |})
    as Hpar.
  destruct (for_each _ ns Locals.empty _) as [mid [e'|l]]; simpl in Hpar.
  - by intros [= <- _].
  - discriminate.
Qed.

(** When the ledger itself does not answer, nothing at all is touched. *)
Lemma sync_ledger_failure (subtensor : Subtensor.t) (block : option Z)
    (self : Metagraph) (e : exn) :
  Subtensor.get_current_block subtensor = inl e \/
  ((exists blk, Subtensor.get_current_block subtensor = inr blk) /\
   Subtensor.neurons subtensor = inl e) ->
  sync to_tensor subtensor block self = (self, inl e).
Proof.
  unfold sync, bind, lift.
  by intros [-> | [[blk ->] ->]].
Qed.

End Sync_facts.

(** ** Reading tensors back *)

Lemma rows_tensor_of_rows (dt : dtype) (rs : list (list Q)) :
  rows (tensor_of_rows dt rs) = map (map (cast dt)) rs.
Proof. by destruct rs. Qed.

(** The fifteen assignments that close [sync], read back one by one. *)
Lemma published (n_total : nat) (block : Z) (l : Locals.t) (self : Metagraph) :
  let self' := (set_tensors_and_params n_total block l self).1 in
  _endpoint_objs self' = _endpoint_objs self /\
  _parameters self' !! "n"
  = Some (T0 (cast float32 (inject_Z (Z.of_nat n_total)))) /\
  _parameters self' !! "block" = Some (T0 (cast float32 (inject_Z block))) /\
  _parameters self' !! "uids" = Some (T1 (map (cast float32) (Locals.uids l))) /\
  _parameters self' !! "active"
  = Some (T1 (map (cast float32) (Locals.active l))) /\
  _parameters self' !! "stake" = Some (T1 (map (cast float32) (Locals.stake l))) /\
  _parameters self' !! "ranks" = Some (T1 (map (cast float32) (Locals.ranks l))) /\
  _parameters self' !! "trust" = Some (T1 (map (cast float32) (Locals.trust l))) /\
  _parameters self' !! "consensus"
  = Some (T1 (map (cast float32) (Locals.consensus l))) /\
  _parameters self' !! "incentive"
  = Some (T1 (map (cast float32) (Locals.incentive l))) /\
  _parameters self' !! "inflation"
  = Some (T1 (map (cast float32) (Locals.inflation l))) /\
  _parameters self' !! "dividends"
  = Some (T1 (map (cast float32) (Locals.dividends l))) /\
  _parameters self' !! "last_update"
  = Some (T1 (map (cast int64) (Locals.last_updates l))) /\
  _parameters self' !! "weights" = Some (tensor_of_rows float32 (Locals.weights l)) /\
  _parameters self' !! "bonds" = Some (tensor_of_rows int64 (Locals.bonds l)) /\
  _parameters self' !! "endpoints" = Some (tensor_of_rows int64 (Locals.endpoints l)).
Proof.
  cbv zeta. split; [reflexivity|].
  repeat split; read_parameter; reflexivity.
Qed.

(** The assignments touch no key outside their own. *)
Lemma published_other (n_total : nat) (block : Z) (l : Locals.t) (self : Metagraph)
    (key : string) :
  key ∉ ["n"; "block"; "uids"; "stake"; "ranks"; "trust"; "consensus";
         "incentive"; "inflation"; "dividends"; "active"; "last_update";
         "weights"; "bonds"; "endpoints"] ->
  _parameters (set_tensors_and_params n_total block l self).1 !! key
  = _parameters self !! key.
Proof.
  intros Hkey.
  unfold set_tensors_and_params, set_parameter, bind, modify; cbn [fst snd _parameters].
  repeat (rewrite lookup_insert_ne; [|intros <-; apply Hkey; set_solver]).
  reflexivity.
Qed.

(** ** When [sync] succeeds, and what a failing pass does to the cache *)

Lemma dense_row_total (n_total : nat) (pairs : list (Z * Q)) :
  Forall (fun p => (0 <= p.1 < Z.of_nat n_total)%Z) pairs ->
  exists dense, dense_row n_total pairs = inr dense.
Proof.
  intros H. unfold dense_row, convert_weight_uids_and_vals_to_tensor.
  case_bool_decide; [|eauto].
  rewrite zip_unzip. apply write_pairs_total. by rewrite length_replicate.
Qed.

Section Sync_outcomes.

Variable to_tensor : Endpoint.t -> exn + list Z.

Lemma sync_loop_total (n_total : nat) (ns : list Neuron.t) (l : Locals.t)
    (self : Metagraph) :
  is_Some (_endpoint_objs self) ->
  Forall (well_formed to_tensor n_total) ns ->
  exists self' l', for_each (sync_body to_tensor n_total) ns l self = (self', inr l').
Proof.
  revert l self. induction ns as [|n ns IH]; intros l self [objs Hobjs] H; simpl.
  - by exists self, l.
  - apply Forall_cons in H as [([packed Hp] & Hw & Hb) H].
    destruct (dense_row_total _ _ Hw) as [w Hw'].
    destruct (dense_row_total _ _ Hb) as [b Hb'].
    unfold bind at 1, sync_body, endpoint_objs_append, set_endpoint_objs, bind, get,
      modify, lift, ret.
    rewrite Hobjs. simpl. rewrite Hp, Hw', Hb'. apply IH; [by eexists|done].
Qed.

(** The loop and the assignments go through whenever the ledger answers
    with well-formed records (the errors of [torch.tensor], which are not
    modelled, aside). *)
Lemma sync_total (subtensor : Subtensor.t) (block : option Z) (self : Metagraph)
    (blk : Z) (ns : list Neuron.t) :
  Subtensor.get_current_block subtensor = inr blk ->
  Subtensor.neurons subtensor = inr ns ->
  Forall (well_formed to_tensor (length ns)) ns ->
  exists self', sync to_tensor subtensor block self = (self', inr tt).
Proof.
  intros Hblk Hns H.
  unfold sync, bind at 1 2 3 4, lift, set_endpoint_objs, modify.
  rewrite Hblk, Hns.
  destruct (sync_loop_total (length ns) ns Locals.empty
              {| _parameters := _parameters self; _endpoint_objs := Some [] |})
    as (mid & l & ->); [by eexists|done|].
  by eexists.
Qed.

(** A loop that raises has appended the endpoint of the record it raised on,
    and of every record before it. *)
Lemma sync_loop_raise_cache (n_total : nat) (ns : list Neuron.t) (l : Locals.t)
    (self self' : Metagraph) (objs : list Endpoint.t) (e : exn) :
  _endpoint_objs self = Some objs ->
  for_each (sync_body to_tensor n_total) ns l self = (self', inl e) ->
  exists k, 0 < k <= length ns /\
            _endpoint_objs self' = Some (objs ++ map endpoint_of (take k ns)).
Proof.
  revert l self objs. induction ns as [|n ns IH]; intros l self objs Hobjs H;
    simpl in H; [discriminate|].
  unfold bind at 1 in H.
  destruct (sync_body to_tensor n_total l n self) as [mid [e'|l1]] eqn:Hbody.
  - injection H as -> ->. exists 1. split; [simpl; lia|].
    revert Hbody.
    unfold sync_body, endpoint_objs_append, set_endpoint_objs, bind, get,
      modify, lift, raise, ret.
    rewrite Hobjs. simpl.
    destruct (to_tensor (endpoint_of n)) as [?|packed]; [by intros [= <- _]|].
    destruct (dense_row n_total (Neuron.weights n)) as [?|w]; [by intros [= <- _]|].
    destruct (dense_row n_total (Neuron.bonds n)) as [?|b]; [by intros [= <- _]|].
    discriminate.
  - apply sync_body_ok in Hbody
      as (objs' & _ & _ & _ & Hobjs' & -> & _).
    rewrite Hobjs in Hobjs'. injection Hobjs' as <-.
    apply (IH _ _ (objs ++ [endpoint_of n])) in H as (k & Hk & Hcache); [|done].
    exists (S k). split; [simpl; lia|].
    rewrite Hcache. simpl. by rewrite <- app_assoc.
Qed.

(** So a pass that raises after the ledger has answered leaves, in place of
    the cache it found, the endpoints of the first records of the answer. *)
Lemma sync_raise_cache (subtensor : Subtensor.t) (block : option Z)
    (self self' : Metagraph) (blk : Z) (ns : list Neuron.t) (e : exn) :
  Subtensor.get_current_block subtensor = inr blk ->
  Subtensor.neurons subtensor = inr ns ->
  sync to_tensor subtensor block self = (self', inl e) ->
  exists k, 0 < k <= length ns /\
            _endpoint_objs self' = Some (map endpoint_of (take k ns)).
Proof.
  intros Hblk Hns.
  unfold sync, bind at 1 2 3 4, lift, set_endpoint_objs, modify.
  rewrite Hblk, Hns.
  destruct (for_each _ ns Locals.empty _) as [mid [e'|l]] eqn:Hloop; [|discriminate].
  intros [= <- _].
  by apply (sync_loop_raise_cache _ _ _ _ _ []) in Hloop.
Qed.

End Sync_outcomes.

(** ** Claims about [sync] *)

Section Sync_claims.

Variable to_tensor : Endpoint.t -> exn + list Z.
Variable from_tensor : tensor -> exn + Endpoint.t.

(** With [n] set as [sync] sets it and the cache filled, [hotkeys] reads
    the cache. *)
Lemma hotkeys_cached (self : Metagraph) (objs : list Endpoint.t) :
  _parameters self !! "n"
  = Some (T0 (cast float32 (inject_Z (Z.of_nat (length objs))))) ->
  _endpoint_objs self = Some objs ->
  hotkeys from_tensor self = (self, inr (map Endpoint.hotkey objs)).
Proof.
  intros Hn Hcache.
  unfold hotkeys, endpoint_objs, n_item, getattr, bind, get, lift, ret.
  rewrite Hn. cbn [item]. rewrite Qeq_bool_population.
  destruct objs as [|o objs]; [done|].
  rewrite bool_decide_eq_false_2 by done.
  rewrite Hn. cbn [item]. rewrite Qeq_bool_population.
  rewrite bool_decide_eq_false_2 by done. by rewrite Hcache.
Qed.

(** The block that a successful [sync] stores is the one the ledger gave. *)
Lemma sync_block_from_ledger (subtensor : Subtensor.t) (block : option Z)
    (self self' : Metagraph) (blk : Z) :
  Subtensor.get_current_block subtensor = inr blk ->
  sync to_tensor subtensor block self = (self', inr tt) ->
  _parameters self' !! "block" = Some (T0 (cast float32 (inject_Z blk))).
Proof.
  intros Hblk Hsync.
  apply sync_ok in Hsync as (blk' & ns & es & ws & bs & Hblk' & _ & _ & _ & _ & ->).
  rewrite Hblk in Hblk'. injection Hblk' as <-.
  apply published.
Qed.

(** C9: the [block] argument of [sync] has no effect: from the same state
    and with the same ledger answers, [sync(b1)] and [sync(b2)] return the
    same outcome and leave the same state. *)
Theorem sync_ignores_block_argument (subtensor : Subtensor.t) (b1 b2 : option Z)
    (self : Metagraph) :
  sync to_tensor subtensor b1 self = sync to_tensor subtensor b2 self.
Proof. reflexivity. Qed.

(** C4, as amended: after a successful [sync], the entries of stake, ranks,
    trust, consensus, incentive and inflation at the position of a neuron
    are what [float32] keeps of its raw ledger integers divided by 10^9 in
    double precision; the entry of dividends is what [float32] keeps of its
    raw value, which is the raw value itself when that is below 2^24; the
    entry of the last-update vector (attribute [last_update]) is its raw
    value.  The raw integers are of magnitude below 2^63. *)
Theorem sync_scales_scores (subtensor : Subtensor.t) (block : option Z)
    (self self' : Metagraph) (neurons : list Neuron.t) (i : nat) (n : Neuron.t) :
  sync to_tensor subtensor block self = (self', inr tt) ->
  Subtensor.neurons subtensor = inr neurons ->
  neurons !! i = Some n ->
  Forall ledger_integer
    [Neuron.stake n; Neuron.rank n; Neuron.trust n; Neuron.consensus n;
     Neuron.incentive n; Neuron.inflation n; Neuron.dividends n;
     Neuron.last_update n] ->
  entry self' "stake" i = Some (cast float32 (truediv (Neuron.stake n) billion)) /\
  entry self' "ranks" i = Some (cast float32 (truediv (Neuron.rank n) billion)) /\
  entry self' "trust" i = Some (cast float32 (truediv (Neuron.trust n) billion)) /\
  entry self' "consensus" i
  = Some (cast float32 (truediv (Neuron.consensus n) billion)) /\
  entry self' "incentive" i
  = Some (cast float32 (truediv (Neuron.incentive n) billion)) /\
  entry self' "inflation" i
  = Some (cast float32 (truediv (Neuron.inflation n) billion)) /\
  entry self' "dividends" i = Some (cast float32 (inject_Z (Neuron.dividends n))) /\
  ((Z.abs (Neuron.dividends n) < 2 ^ 24)%Z ->
   entry self' "dividends" i = Some (inject_Z (Neuron.dividends n))) /\
  entry self' "last_update" i = Some (inject_Z (Neuron.last_update n)).
Proof.
  intros Hsync Hns Hi _.
  apply sync_ok in Hsync as (blk & ns & es & ws & bs & _ & Hns' & _ & _ & _ & ->).
  rewrite Hns in Hns'. injection Hns' as <-.
  destruct (published (length neurons) blk (extend Locals.empty neurons es ws bs)
              {| _parameters := _parameters self;
                 _endpoint_objs := Some (map endpoint_of neurons) |})
    as (_ & _ & _ & _ & _ & Hstake & Hranks & Htrust & Hcons & Hinc & Hinf
        & Hdiv & Hlast & _).
  unfold entry.
  rewrite Hstake, Hranks, Htrust, Hcons, Hinc, Hinf, Hdiv, Hlast.
  cbn [entries extend Locals.stake Locals.ranks Locals.trust Locals.consensus
       Locals.incentive Locals.inflation Locals.dividends Locals.last_updates
       Locals.empty app].
  rewrite <- !list_fmap_compose, !list_lookup_fmap, Hi.
  cbn [fmap option_fmap option_map compose].
  rewrite cast_int64_integer.
  repeat split; try reflexivity.
  intros Hsmall. by rewrite cast_float32_exact.
Qed.

(** C5: after a successful [sync] over [n] neuron records, the population
    tensor holds the [float32] of [n], which is [n] itself below 2^24, every
    per-uid vector that [sync] assigns has length [n], the weights and bonds
    matrices have [n] rows of length [n], the endpoints table has [n] rows,
    and [hotkeys] returns [n] keys. *)
Theorem sync_shapes (subtensor : Subtensor.t) (block : option Z)
    (self self' : Metagraph) (neurons : list Neuron.t) :
  sync to_tensor subtensor block self = (self', inr tt) ->
  Subtensor.neurons subtensor = inr neurons ->
  _parameters self' !! "n"
  = Some (T0 (cast float32 (inject_Z (Z.of_nat (length neurons))))) /\
  ((Z.of_nat (length neurons) < 2 ^ 24)%Z ->
   _parameters self' !! "n" = Some (T0 (inject_Z (Z.of_nat (length neurons))))) /\
  Forall (fun key => exists v, _parameters self' !! key = Some (T1 v) /\
                               length v = length neurons) synced_vectors /\
  Forall (fun key => exists t, _parameters self' !! key = Some t /\
                               length (rows t) = length neurons /\
                               Forall (fun r => length r = length neurons) (rows t))
         ["weights"; "bonds"] /\
  (exists t, _parameters self' !! "endpoints" = Some t /\
             length (rows t) = length neurons) /\
  (exists keys, (hotkeys from_tensor self').2 = inr keys /\
                length keys = length neurons).
Proof.
  intros Hsync Hns.
  apply sync_ok in Hsync
    as (blk & ns & es & ws & bs & _ & Hns' & Hes & Hws & Hbs & ->).
  rewrite Hns in Hns'. injection Hns' as <-.
  destruct (published (length neurons) blk (extend Locals.empty neurons es ws bs)
              {| _parameters := _parameters self;
                 _endpoint_objs := Some (map endpoint_of neurons) |})
    as (Hcache & Hn & _ & Huids & Hact & Hstake & Hranks & Htrust & Hcons & Hinc
        & Hinf & Hdiv & Hlast & Hw & Hb & He).
  assert (Hrow : forall (pairs_of : Neuron.t -> list (Z * Q)) rs dt,
             Forall2 (fun n r => dense_row (length neurons) (pairs_of n) = inr r)
                     neurons rs ->
             length (rows (tensor_of_rows dt rs)) = length neurons /\
             Forall (fun r => length r = length neurons)
                    (rows (tensor_of_rows dt rs))).
  { intros pairs_of rs dt HF. rewrite rows_tensor_of_rows. split.
    - rewrite length_map. symmetry. by eapply Forall2_length.
    - apply Forall_fmap. eapply Forall2_Forall_r; [exact HF|].
      apply Forall_forall. intros n _ r Hr. simpl. rewrite length_map.
      by eapply dense_row_length. }
  split; [exact Hn|]. split; [|split; [|split; [|split]]].
  - intros Hsmall. rewrite Hn, cast_float32_exact; [done|lia].
  - unfold synced_vectors.
    repeat (apply Forall_cons; split; [eexists; split; [eassumption|]|]);
      try apply Forall_nil;
      cbn [extend Locals.uids Locals.active Locals.stake Locals.ranks Locals.trust
           Locals.consensus Locals.incentive Locals.inflation Locals.dividends
           Locals.last_updates Locals.empty app];
      by rewrite ?length_map.
  - repeat (apply Forall_cons; split; [eexists; split; [eassumption|]|]);
      try (by apply Forall_nil).
    + exact (Hrow Neuron.weights ws float32 Hws).
    + exact (Hrow Neuron.bonds bs int64 Hbs).
  - eexists; split; [exact He|].
    rewrite rows_tensor_of_rows, length_map. simpl.
    symmetry. by eapply Forall2_length.
  - exists (map Endpoint.hotkey (map endpoint_of neurons)).
    rewrite (hotkeys_cached _ (map endpoint_of neurons)).
    + by rewrite !length_map.
    + by rewrite length_map.
    + exact Hcache.
Qed.

End Sync_claims.

(** ** Claims about the rows of the matrices *)

Section Row_claims.

Variable to_tensor : Endpoint.t -> exn + list Z.

(** Row [i] of the weights matrix is the dense row of neuron [i] stored as
    [float32]; row [i] of the bonds matrix is its dense row stored as
    [int64]. *)
Lemma sync_rows (subtensor : Subtensor.t) (block : option Z)
    (self self' : Metagraph) (neurons : list Neuron.t) (i : nat) (n : Neuron.t) :
  sync to_tensor subtensor block self = (self', inr tt) ->
  Subtensor.neurons subtensor = inr neurons ->
  neurons !! i = Some n ->
  exists w b,
    dense_row (length neurons) (Neuron.weights n) = inr w /\
    dense_row (length neurons) (Neuron.bonds n) = inr b /\
    row self' "weights" i = Some (map (cast float32) w) /\
    row self' "bonds" i = Some (map (cast int64) b).
Proof.
  intros Hsync Hns Hi.
  apply sync_ok in Hsync
    as (blk & ns & es & ws & bs & _ & Hns' & _ & Hws & Hbs & ->).
  rewrite Hns in Hns'. injection Hns' as <-.
  destruct (published (length neurons) blk (extend Locals.empty neurons es ws bs)
              {| _parameters := _parameters self;
                 _endpoint_objs := Some (map endpoint_of neurons) |})
    as (_ & _ & _ & _ & _ & _ & _ & _ & _ & _ & _ & _ & _ & Hw & Hb & _).
  destruct (Forall2_lookup_l _ _ _ _ _ Hws Hi) as (w & Hwi & Hwrow).
  destruct (Forall2_lookup_l _ _ _ _ _ Hbs Hi) as (b & Hbi & Hbrow).
  exists w, b. unfold row. rewrite Hw, Hb, !rows_tensor_of_rows.
  cbn [extend Locals.weights Locals.bonds Locals.empty app].
  by rewrite !list_lookup_fmap, Hwi, Hbi.
Qed.

(** The sum of a stored row, when no peer is named twice. *)
Lemma stored_row_sum (dt : dtype) (n_total : nat) (pairs : list (Z * Q))
    (dense : list Q) :
  dense_row n_total pairs = inr dense ->
  NoDup (map fst pairs) ->
  (Qsum (map (cast dt) dense) == Qsum (map (fun p => cast dt p.2) pairs))%Q.
Proof.
  intros H Hnd. apply (dense_row_cast dt) in H. apply dense_row_sum in H.
  - by rewrite <- list_fmap_compose in H.
  - by rewrite <- list_fmap_compose.
Qed.

(** C8: after a successful [sync] over [n] neurons, the weights row of a
    neuron with an empty weights list, and the bonds row of a neuron with
    an empty bonds list, is the all-zero vector of length [n]. *)
Theorem sync_empty_pairs_zero_row (subtensor : Subtensor.t) (block : option Z)
    (self self' : Metagraph) (neurons : list Neuron.t) (i : nat) (n : Neuron.t) :
  sync to_tensor subtensor block self = (self', inr tt) ->
  Subtensor.neurons subtensor = inr neurons ->
  neurons !! i = Some n ->
  (Neuron.weights n = [] ->
   row self' "weights" i = Some (replicate (length neurons) 0%Q)) /\
  (Neuron.bonds n = [] ->
   row self' "bonds" i = Some (replicate (length neurons) 0%Q)).
Proof.
  intros Hsync Hns Hi.
  destruct (sync_rows _ _ _ _ _ _ _ Hsync Hns Hi) as (w & b & Hw & Hb & -> & ->).
  split; intros Hnil.
  - rewrite Hnil, dense_row_empty in Hw. injection Hw as <-.
    by rewrite fmap_replicate, cast_zero.
  - rewrite Hnil, dense_row_empty in Hb. injection Hb as <-.
    by rewrite fmap_replicate, cast_zero.
Qed.

(** C3, as amended: after a successful [sync], if the peer uids of neuron
    [i]'s weights list are pairwise distinct, row [i] of the weights matrix
    sums to the sum of the raw values of that list, each as [float32] keeps
    it, and so to the sum of the raw values when they are [float32] numbers;
    if the peer uids of its bonds list are pairwise distinct, row [i] of the
    bonds matrix sums to the sum of the raw values of that list, each
    truncated to an integer, and so to the sum of the raw values when they
    are whole numbers.  The raw values are of magnitude below 2^63. *)
Theorem sync_row_sums (subtensor : Subtensor.t) (block : option Z)
    (self self' : Metagraph) (neurons : list Neuron.t) (i : nat) (n : Neuron.t) :
  sync to_tensor subtensor block self = (self', inr tt) ->
  Subtensor.neurons subtensor = inr neurons ->
  neurons !! i = Some n ->
  (NoDup (map fst (Neuron.weights n)) ->
   Forall (fun p => ledger_value p.2) (Neuron.weights n) ->
   exists w,
     row self' "weights" i = Some w /\
     (Qsum w == Qsum (map (fun p => cast float32 p.2) (Neuron.weights n)))%Q /\
     (Forall (fun p => cast float32 p.2 = p.2) (Neuron.weights n) ->
      (Qsum w == Qsum (map snd (Neuron.weights n)))%Q)) /\
  (NoDup (map fst (Neuron.bonds n)) ->
   Forall (fun p => ledger_value p.2) (Neuron.bonds n) ->
   exists b,
     row self' "bonds" i = Some b /\
     (Qsum b == Qsum (map (fun p => inject_Z (Qtrunc p.2)) (Neuron.bonds n)))%Q /\
     (Forall (fun p => exists z, p.2 = inject_Z z) (Neuron.bonds n) ->
      (Qsum b == Qsum (map snd (Neuron.bonds n)))%Q)).
Proof.
  intros Hsync Hns Hi.
  destruct (sync_rows _ _ _ _ _ _ _ Hsync Hns Hi) as (w & b & Hw & Hb & Hrw & Hrb).
  split; intros Hnd _.
  - exists (map (cast float32) w). split; [done|].
    pose proof (stored_row_sum float32 _ _ _ Hw Hnd) as Hsum.
    split; [exact Hsum|]. intros Hexact. rewrite Hsum.
    assert (map (fun p => cast float32 p.2) (Neuron.weights n)
            = map snd (Neuron.weights n)) as ->; [|reflexivity].
    apply map_ext_Forall. exact Hexact.
  - exists (map (cast int64) b). split; [done|].
    pose proof (stored_row_sum int64 _ _ _ Hb Hnd) as Hsum.
    split; [exact Hsum|]. intros Hwhole. rewrite Hsum.
    assert (map (fun p => cast int64 p.2) (Neuron.bonds n)
            = map snd (Neuron.bonds n)) as ->; [|reflexivity].
    apply map_ext_Forall. apply (Forall_impl _ _ _ Hwhole).
    intros [u v] [z Hz]. simpl in *. rewrite Hz. apply cast_int64_integer.
Qed.

End Row_claims.

(** Truncation does nothing to a list of whole numbers. *)
Lemma Qsum_truncated_integers (pairs : list (Z * Q)) :
  Forall (fun p => exists z, p.2 = inject_Z z) pairs ->
  map (fun p => inject_Z (Qtrunc p.2)) pairs = map snd pairs.
Proof.
  induction 1 as [|[u v] rest [z Hz] _ IH]; simpl in *; [done|].
  rewrite IH, Hz. f_equal. apply cast_int64_integer.
Qed.

(** ** Loading a state bundle *)

(** Unfolds [load_from_state_dict] down to the lookups in the bundle. *)
Ltac unfold_load_from_state_dict :=
  unfold load_from_state_dict, load_field, getitem, set_parameter,
    set_endpoint_objs, bind, lift, modify.

(** Splits a hypothesis that the keys of a list are bound into one lookup
    per key. *)
Ltac split_fields :=
  repeat match goal with
         | H : Forall _ (_ :: _) |- _ => apply Forall_cons in H as [[? ?] ?]
         end.

(** [load_from_state_dict] is that loop over [state_fields], followed by the
    reset of the cache. *)
Lemma load_from_state_dict_unfold (sd : gmap string tensor) (self : Metagraph) :
  load_from_state_dict sd self
  = (load_fields sd state_fields ;; set_endpoint_objs None) self.
Proof.
  unfold_load_from_state_dict. unfold state_fields. simpl.
  unfold load_field, getitem, set_parameter, bind, lift, modify, ret.
  repeat match goal with
         | |- context [?m !! ?k] => destruct (m !! k); simpl; [|reflexivity]
         end.
  reflexivity.
Qed.

Lemma load_fields_bound (sd : gmap string tensor) (keys : list string)
    (self : Metagraph) :
  has_fields keys sd ->
  exists self',
    load_fields sd keys self = (self', inr tt) /\
    _endpoint_objs self' = _endpoint_objs self /\
    (forall key, key ∈ keys -> _parameters self' !! key = sd !! key) /\
    (forall key, key ∉ keys -> _parameters self' !! key = _parameters self !! key).
Proof.
  unfold has_fields. revert self.
  induction keys as [|k keys IH]; intros self H; simpl.
  - exists self. split; [done|]. split; [done|]. split; [|done].
    intros key Hkey. by apply elem_of_nil in Hkey.
  - apply Forall_cons in H as [[t Ht] H].
    unfold bind, load_field, getitem, lift, set_parameter, modify. rewrite Ht.
    destruct (IH {| _parameters := <[k := t]> (_parameters self);
                    _endpoint_objs := _endpoint_objs self |} H)
      as (self' & Hrun & Hcache & Hin & Hout).
    simpl. rewrite Hrun.
    exists self'. split; [done|]. split; [done|]. split.
    + intros key Hkey. destruct (decide (key ∈ keys)) as [Hk|Hk]; [by apply Hin|].
      apply elem_of_cons in Hkey as [-> | Hkey]; [|done].
      rewrite (Hout _ Hk). simpl. by rewrite lookup_insert_eq.
    + intros key Hkey. apply not_elem_of_cons in Hkey as [Hne Hkey].
      rewrite (Hout _ Hkey). simpl. by rewrite lookup_insert_ne.
Qed.

Lemma load_fields_ok_bound (sd : gmap string tensor) (keys : list string)
    (self : Metagraph) :
  (load_fields sd keys self).2 = inr tt -> has_fields keys sd.
Proof.
  unfold has_fields. revert self.
  induction keys as [|k keys IH]; intros self H; simpl in H; [by apply Forall_nil|].
  unfold bind, load_field, getitem, lift, set_parameter, modify in H.
  destruct (sd !! k) as [t|] eqn:Ht; simpl in H; [|discriminate].
  apply Forall_cons. split; [by eexists|]. by eapply IH.
Qed.

(** The bundle is loaded exactly when it binds all seventeen keys. *)
Lemma load_from_state_dict_ok_iff (sd : gmap string tensor) (self : Metagraph) :
  (load_from_state_dict sd self).2 = inr tt <-> has_fields state_fields sd.
Proof.
  rewrite load_from_state_dict_unfold. unfold bind at 1. split.
  - destruct (load_fields sd state_fields self) as [mid [e|[]]] eqn:Hrun;
      [discriminate|].
    intros _. apply (load_fields_ok_bound sd state_fields self). by rewrite Hrun.
  - intros H.
    by destruct (load_fields_bound sd state_fields self H) as (self' & -> & _).
Qed.

(** A loaded bundle overwrites the seventeen keys, resets the cache and
    leaves every other attribute of the receiving object alone. *)
Lemma load_from_state_dict_fields (sd : gmap string tensor) (self : Metagraph) :
  has_fields state_fields sd ->
  _endpoint_objs (load_from_state_dict sd self).1 = None /\
  (forall key, key ∈ state_fields ->
     _parameters (load_from_state_dict sd self).1 !! key = sd !! key) /\
  (forall key, key ∉ state_fields ->
     _parameters (load_from_state_dict sd self).1 !! key = _parameters self !! key).
Proof.
  intros H. rewrite load_from_state_dict_unfold. unfold bind.
  destruct (load_fields_bound sd state_fields self H)
    as (self' & -> & _ & Hin & Hout).
  unfold set_endpoint_objs, modify. simpl. done.
Qed.

Section Fields.

Variable __version_as_int__ : Z.
Variable to_tensor : Endpoint.t -> exn + list Z.

(** A new object has the sixteen attributes of [clear], and no [uids] and
    no [last_update]. *)
Lemma init_fields :
  has_fields cleared_fields (state_dict (init __version_as_int__)) /\
  state_dict (init __version_as_int__) !! "uids" = None /\
  state_dict (init __version_as_int__) !! "last_update" = None.
Proof.
  split; [|split; reflexivity].
  unfold has_fields, cleared_fields.
  repeat (apply Forall_cons; split; [by eexists|]). by apply Forall_nil.
Qed.

(** [sync] adds [uids]: once it has succeeded on an object that had the
    attributes of [clear], the object has all seventeen keys. *)
Lemma sync_has_state_fields (subtensor : Subtensor.t) (block : option Z)
    (self self' : Metagraph) :
  sync to_tensor subtensor block self = (self', inr tt) ->
  has_fields cleared_fields (state_dict self) ->
  has_fields state_fields (state_dict self').
Proof.
  intros Hsync H.
  apply sync_ok in Hsync as (blk & ns & es & ws & bs & _ & _ & _ & _ & _ & ->).
  unfold has_fields, cleared_fields, state_dict in *.
  split_fields.
  unfold state_fields, set_tensors_and_params, set_parameter, bind, modify.
  cbn [fst snd _parameters].
  repeat (apply Forall_cons; split;
          [repeat (rewrite lookup_insert_ne by discriminate);
           first [eexists; eassumption | rewrite lookup_insert_eq; by eexists]|]).
  by apply Forall_nil.
Qed.

(** So does a successful [load_from_state_dict]. *)
Lemma load_has_state_fields (sd : gmap string tensor) (self self' : Metagraph) :
  load_from_state_dict sd self = (self', inr tt) ->
  has_fields state_fields (state_dict self').
Proof.
  intros Hload.
  assert (Hsd : has_fields state_fields sd).
  { apply (load_from_state_dict_ok_iff sd self). by rewrite Hload. }
  destruct (load_from_state_dict_fields sd self Hsd) as (_ & Hin & _).
  rewrite Hload in Hin. simpl in Hin.
  unfold has_fields, state_dict in *. rewrite Forall_forall in *.
  intros key Hkey. rewrite (Hin key Hkey). by apply Hsd.
Qed.

(** C10: a new, cleared metagraph has no [uids] entry in its state bundle,
    so loading that bundle fails on the key [uids], whatever object
    receives it; the bundle of an object that was synced, or loaded, with
    success is loaded with success. *)
Theorem fresh_state_round_trip_fails (subtensor : Subtensor.t) (block : option Z)
    (sd : gmap string tensor) (synced loaded target : Metagraph) :
  sync to_tensor subtensor block (init __version_as_int__) = (synced, inr tt) ->
  load_from_state_dict sd (init __version_as_int__) = (loaded, inr tt) ->
  state_dict (init __version_as_int__) !! "uids" = None /\
  (load_from_state_dict (state_dict (init __version_as_int__)) target).2
  = inl (KeyError "uids") /\
  (load_from_state_dict (state_dict synced) target).2 = inr tt /\
  (load_from_state_dict (state_dict loaded) target).2 = inr tt.
Proof.
  intros Hsync Hload. split; [reflexivity|]. split; [|split].
  - unfold_load_from_state_dict. reflexivity.
  - apply load_from_state_dict_ok_iff.
    eapply sync_has_state_fields; [exact Hsync|]. apply init_fields.
  - apply load_from_state_dict_ok_iff. by eapply load_has_state_fields.
Qed.

End Fields.

(** ** Claims about [load] *)

Lemma isfile_absent (w : World) (path : string) :
  filesystem w !! collapse_slashes path = None -> isfile w path = false.
Proof.
  intros H. unfold isfile. rewrite H. apply bool_decide_eq_false_2.
  by intros [? ?].
Qed.

Lemma isfile_present (w : World) (path : string) (f : file) :
  filesystem w !! collapse_slashes path = Some f -> isfile w path = true.
Proof.
  intros H. unfold isfile. rewrite H. apply bool_decide_eq_true_2. by eexists.
Qed.

(** A leading [~/] is replaced by [HOME] without its trailing slashes,
    whatever users the system knows. *)
Lemma expanduser_home (passwd : gmap string string) (home tail : string) :
  expanduser passwd home (String "~" (String "/" tail))
  = rstrip_slashes home +:+ String "/" tail.
Proof.
  unfold expanduser. cbn [split_at_slash].
  rewrite bool_decide_eq_true_2 by done.
  by destruct (rstrip_slashes home).
Qed.

Lemma metagraph_path_unfold (home name : string) :
  metagraph_path home name
  = rstrip_slashes home +:+ "/.bittensor/" +:+ name +:+ ".pt".
Proof. apply expanduser_home. Qed.

Lemma load_path (passwd : gmap string string) (home name : string) :
  expanduser passwd home ("~/.bittensor/" +:+ name +:+ ".pt")
  = metagraph_path home name.
Proof.
  rewrite metagraph_path_unfold. apply expanduser_home.
Qed.

(** Under an absolute home directory the path of [load] is absolute, and
    expanding it once more changes nothing. *)
Lemma expanduser_metagraph_path (passwd : gmap string string) (rest name : string) :
  expanduser passwd (String "/" rest) (metagraph_path (String "/" rest) name)
  = metagraph_path (String "/" rest) name.
Proof.
  rewrite metagraph_path_unfold. cbn [rstrip_slashes].
  destruct (rstrip_slashes rest); [|reflexivity].
  by rewrite bool_decide_eq_true_2.
Qed.

(** [load] never raises: whatever its body raises is logged. *)
Lemma load_returns (subtensor : Subtensor.t) (network : option string) (w : World) :
  (load subtensor network w).2 = inr tt.
Proof.
  unfold load, try_except.
  match goal with |- context [bind ?c ?k w] => destruct (bind c k w) as [w' [e|[]]] end;
    reflexivity.
Qed.

Lemma on_self_run {A} (c : M Metagraph A) (w : World) :
  on_self c w = (with_self w (c (self_ w)).1, (c (self_ w)).2).
Proof. unfold on_self. by destruct (c (self_ w)). Qed.

(** [load_from_path] on any path: the three things the file can be. *)
Lemma load_from_path_run (path : string) (w : World) :
  load_from_path path w
  = match filesystem w
            !! collapse_slashes (expanduser (passwd w) (home w) path) with
    | None => (w, inl (FileNotFoundError (expanduser (passwd w) (home w) path)))
    | Some Malformed =>
        (w, inl (UnpicklingError (expanduser (passwd w) (home w) path)))
    | Some (Pickle sd) =>
        (with_self w (load_from_state_dict sd (self_ w)).1,
         (load_from_state_dict sd (self_ w)).2)
    end.
Proof.
  unfold load_from_path, torch_load, bind, get, raise, ret.
  destruct (filesystem w !! _) as [[sd|]|]; [|done|done].
  apply on_self_run.
Qed.

(** [load]: the test on the file, and the handler around [load_from_path]. *)
Lemma load_run (subtensor : Subtensor.t) (network : option string) (w : World) :
  load subtensor network w
  = if isfile w (metagraph_path (home w) (network_name subtensor network))
    then match load_from_path
                 (metagraph_path (home w) (network_name subtensor network)) w with
         | (w', inr _) => (w', inr tt)
         | (w', inl e) => (logged w' (LogException e), inr tt)
         end
    else (logged w
            (LogWarning
               ("Did not load metagraph from path: "
                +:+ metagraph_path (home w) (network_name subtensor network)
                +:+ ", file does not exist. Run metagraph.save() first.")),
          inr tt).
Proof.
  unfold load, try_except, bind at 1, get.
  fold (network_name subtensor network). cbv zeta. rewrite load_path.
  destruct (isfile w _); [|reflexivity].
  by destruct (load_from_path _ w) as [w' [e|[]]].
Qed.

(** C7: when the snapshot file of the network does not exist, [load] returns
    normally, leaves the metagraph object and the files as they were, and
    logs one warning. *)
Theorem load_missing_file (subtensor : Subtensor.t) (network : option string)
    (w : World) :
  filesystem w
    !! collapse_slashes (metagraph_path (home w) (network_name subtensor network))
  = None ->
  load subtensor network w
  = (logged w (LogWarning
                 ("Did not load metagraph from path: "
                  +:+ metagraph_path (home w) (network_name subtensor network)
                  +:+ ", file does not exist. Run metagraph.save() first.")),
     inr tt) /\
  self_ (load subtensor network w).1 = self_ w.
Proof.
  intros H. apply isfile_absent in H.
  rewrite load_run, H. done.
Qed.

(** C6, as amended: for every path whose file exists with malformed bytes,
    [load_from_path] raises the deserialization error to its caller and
    leaves everything as it was.  [load] catches whatever [load_from_path]
    raises on the file of the network, logs it and returns normally; so on a
    malformed file of the network, under an absolute home directory, it logs
    the deserialization error and leaves the metagraph object as it was. *)
Theorem load_malformed_file (subtensor : Subtensor.t) (network : option string)
    (w : World) (path : string) :
  (filesystem w !! collapse_slashes (expanduser (passwd w) (home w) path)
   = Some Malformed ->
   load_from_path path w
   = (w, inl (UnpicklingError (expanduser (passwd w) (home w) path)))) /\
  (forall (w' : World) (e : exn),
     isfile w (metagraph_path (home w) (network_name subtensor network)) = true ->
     load_from_path (metagraph_path (home w) (network_name subtensor network)) w
     = (w', inl e) ->
     load subtensor network w = (logged w' (LogException e), inr tt)) /\
  (forall rest : string,
     home w = String "/" rest ->
     filesystem w
       !! collapse_slashes (metagraph_path (home w) (network_name subtensor network))
     = Some Malformed ->
     load subtensor network w
     = (logged w (LogException
                    (UnpicklingError
                       (metagraph_path (home w) (network_name subtensor network)))),
        inr tt)).
Proof.
  split; [|split].
  - intros Hfile. by rewrite load_from_path_run, Hfile.
  - intros w' e Hisfile Hraise. by rewrite load_run, Hisfile, Hraise.
  - intros rest Hhome Hfile.
    assert (Hexp : expanduser (passwd w) (home w)
                     (metagraph_path (home w) (network_name subtensor network))
                   = metagraph_path (home w) (network_name subtensor network))
      by (rewrite Hhome; apply expanduser_metagraph_path).
    by rewrite load_run, (isfile_present _ _ _ Hfile), load_from_path_run,
      Hexp, Hfile.
Qed.

(** ** The round trip through a state bundle *)

(** A run is determined by its final state and its outcome. *)
Lemma run_outcome {S A} (r : S * (exn + A)) (o : exn + A) : r.2 = o -> r = (r.1, o).
Proof. destruct r. simpl. by intros ->. Qed.

(** Every key that [load_from_state_dict] reads comes back as it was saved,
    whatever object receives the bundle. *)
Lemma state_dict_round_trip (s target : Metagraph) :
  has_fields state_fields (state_dict s) ->
  (load_from_state_dict (state_dict s) target).2 = inr tt /\
  forall key, key ∈ state_fields ->
    _parameters (load_from_state_dict (state_dict s) target).1 !! key
    = _parameters s !! key.
Proof.
  intros H. split; [by apply load_from_state_dict_ok_iff|].
  by destruct (load_from_state_dict_fields (state_dict s) target H) as (_ & Hin & _).
Qed.

(** But [last_update], the attribute [sync] assigns, is not one of them: a
    new object that receives a bundle has no such attribute. *)
Lemma reload_drops_last_update (__version_as_int__ : Z) (sd : gmap string tensor) :
  has_fields state_fields sd ->
  _parameters (load_from_state_dict sd (init __version_as_int__)).1 !! "last_update"
  = None.
Proof.
  intros H.
  destruct (load_from_state_dict_fields sd (init __version_as_int__) H)
    as (_ & _ & Hout).
  rewrite Hout; [reflexivity|].
  unfold state_fields. rewrite !not_elem_of_cons.
  repeat split; try discriminate. apply not_elem_of_nil.
Qed.

(** C1, at a failing input: a new metagraph is synced over two neurons whose
    last updates are 7 and 9; its state bundle is loaded into a new
    metagraph with success.  The synced object holds the vector [7; 9] under
    [last_update]; the reloaded object has no [last_update], and its
    [lastupdate] is the empty vector of [clear]. *)
Theorem round_trip_loses_last_update :
  (sync Sample.to_tensor (Sample.ledger 42 Sample.two_neurons) None Sample.fresh).2
  = inr tt /\
  (load_from_state_dict (state_dict Sample.synced) Sample.fresh).2 = inr tt /\
  _parameters Sample.synced !! "last_update" = Some (T1 [7%Q; 9%Q]) /\
  _parameters Sample.synced !! "lastupdate" = Some (T1 []) /\
  _parameters Sample.reloaded !! "last_update" = None /\
  _parameters Sample.reloaded !! "lastupdate" = Some (T1 []).
Proof. repeat split; vm_compute; reflexivity. Qed.

(** On the same input every other vector of the synced object, the matrices
    and the endpoints come back. *)
Example round_trip_keeps_declared_fields :
  Forall (fun key => _parameters Sample.reloaded !! key
                     = _parameters Sample.synced !! key) state_fields.
Proof.
  apply Forall_forall. intros key Hkey.
  apply (state_dict_round_trip Sample.synced Sample.fresh); [|exact Hkey].
  eapply sync_has_state_fields; [|apply init_fields].
  apply run_outcome. vm_compute. reflexivity.
Qed.

(** ** A failing pass *)

(** C2, at a failing input: a metagraph synced over two neurons is synced
    again while the ledger returns two records, the second of which names
    peer 5.  The pass raises and the parameters are as before, but the cache
    of endpoint objects now holds the endpoints of the rejected records, and
    [hotkeys] returns their keys. *)
Theorem failed_sync_changes_hotkeys :
  (sync Sample.to_tensor (Sample.ledger 43 Sample.inconsistent_neurons) None
        Sample.synced).2 = inl (IndexOutOfRange 5) /\
  _parameters Sample.after_failed_sync = _parameters Sample.synced /\
  (hotkeys Sample.from_tensor Sample.synced).2 = inr ["hk0"; "hk1"] /\
  (hotkeys Sample.from_tensor Sample.after_failed_sync).2 = inr ["hkA"; "hkB"].
Proof.
  assert (Hrun : (sync Sample.to_tensor (Sample.ledger 43 Sample.inconsistent_neurons)
                       None Sample.synced).2 = inl (IndexOutOfRange 5))
    by (vm_compute; reflexivity).
  split; [exact Hrun|]. split; [|split; vm_compute; reflexivity].
  eapply (sync_raise_parameters Sample.to_tensor). apply run_outcome. exact Hrun.
Qed.

(** ** Concrete runs *)

(** C3, counterexample: a neuron that names peer 0 twice, with raw weights 1
    and 2, a neuron with one bond of one half, and a neuron with one weight
    of three tenths.  All three passes succeed.  Row 0 of the weights matrix
    of the first is [2], and 2 is not the sum 3 of the raw values; row 0 of
    the bonds matrix of the second, stored as [int64], is [0], and 0 is not
    one half; row 0 of the weights matrix of the third, stored as [float32],
    sums to 5033165/16777216, which is not three tenths. *)
Lemma sync_row_sums_differ :
  (sync Sample.to_tensor (Sample.ledger 42 [Sample.repeated_peer]) None
        Sample.fresh).2 = inr tt /\
  row (sync Sample.to_tensor (Sample.ledger 42 [Sample.repeated_peer]) None
            Sample.fresh).1 "weights" 0 = Some [2%Q] /\
  ~ (Qsum [2%Q] == Qsum (map snd (Neuron.weights Sample.repeated_peer)))%Q /\
  (sync Sample.to_tensor (Sample.ledger 42 [Sample.fractional_bond]) None
        Sample.fresh).2 = inr tt /\
  row (sync Sample.to_tensor (Sample.ledger 42 [Sample.fractional_bond]) None
            Sample.fresh).1 "bonds" 0 = Some [0%Q] /\
  ~ (Qsum [0%Q] == Qsum (map snd (Neuron.bonds Sample.fractional_bond)))%Q /\
  (sync Sample.to_tensor (Sample.ledger 42 Sample.two_neurons) None
        Sample.fresh).2 = inr tt /\
  row (sync Sample.to_tensor (Sample.ledger 42 Sample.two_neurons) None
            Sample.fresh).1 "weights" 0 = Some [0%Q; (5033165 # 16777216)%Q] /\
  ~ (Qsum [0%Q; (5033165 # 16777216)%Q] == Qsum [(3 # 10)%Q])%Q.
Proof.
  split; [vm_compute; reflexivity|]. split; [vm_compute; reflexivity|].
  split; [vm_compute; discriminate|].
  split; [vm_compute; reflexivity|]. split; [vm_compute; reflexivity|].
  split; [vm_compute; discriminate|].
  split; [vm_compute; reflexivity|]. split; [vm_compute; reflexivity|].
  vm_compute. discriminate.
Qed.

(** C4, counterexample: a neuron whose stake is 1 and whose dividends are
    123456789.  The pass succeeds.  The stored dividends are 123456792, not
    the raw value; the stored stake is 9007199/2^53, not 1/10^9. *)
Lemma sync_scales_scores_inexact :
  (sync Sample.to_tensor (Sample.ledger 42 [Sample.inexact_scores]) None
        Sample.fresh).2 = inr tt /\
  entry (sync Sample.to_tensor (Sample.ledger 42 [Sample.inexact_scores]) None
               Sample.fresh).1 "dividends" 0 = Some (inject_Z 123456792) /\
  ~ (inject_Z 123456792 == inject_Z (Neuron.dividends Sample.inexact_scores))%Q /\
  entry (sync Sample.to_tensor (Sample.ledger 42 [Sample.inexact_scores]) None
               Sample.fresh).1 "stake" 0 = Some (9007199 # 9007199254740992)%Q /\
  ~ ((9007199 # 9007199254740992)
     == inject_Z (Neuron.stake Sample.inexact_scores) / inject_Z (10 ^ 9))%Q.
Proof.
  split; [vm_compute; reflexivity|]. split; [vm_compute; reflexivity|].
  split; [vm_compute; discriminate|].
  split; [vm_compute; reflexivity|]. vm_compute. discriminate.
Qed.

(** C6, counterexample: the snapshot file of the network exists and is
    malformed; [load] returns normally, with the error in the log. *)
Lemma load_malformed_file_returns :
  isfile (Sample.world Sample.fresh {[ Sample.path := Malformed ]}) Sample.path
  = true /\
  (load (Sample.ledger 42 []) None
        (Sample.world Sample.fresh {[ Sample.path := Malformed ]})).2 = inr tt /\
  (load (Sample.ledger 42 []) None
        (Sample.world Sample.fresh {[ Sample.path := Malformed ]})).2
  <> inl (UnpicklingError Sample.path) /\
  logger (load (Sample.ledger 42 []) None
               (Sample.world Sample.fresh {[ Sample.path := Malformed ]})).1
  = [LogException (UnpicklingError Sample.path)].
Proof.
  split; [vm_compute; reflexivity|]. split; [vm_compute; reflexivity|].
  split; [vm_compute; discriminate|]. vm_compute; reflexivity.
Qed.

(** The end-to-end scenario of the specification. *)
Example end_to_end :
  _parameters Sample.synced !! "n" = Some (T0 2%Q) /\
  _parameters Sample.synced !! "weights"
  = Some (T2 [[0%Q; (5033165 # 16777216)%Q]; [0%Q; 0%Q]]) /\
  Forall2 Qeq (entries (default (T1 []) (_parameters Sample.synced !! "stake")))
          [1%Q; (1 # 2)%Q].
Proof.
  split; [vm_compute; reflexivity|]. split; [vm_compute; reflexivity|].
  vm_compute. repeat constructor.
Qed.

(** Saving and loading go through the same file although the two paths are
    spelt differently, and a loaded object decodes its endpoints anew. *)
Example save_then_load :
  let saved := (save (Sample.ledger 42 []) None (Sample.world Sample.synced ∅)).1 in
  let loaded := (load (Sample.ledger 42 []) None
                      (Sample.world Sample.fresh (filesystem saved))).1 in
  logger loaded = [] /\
  (hotkeys Sample.from_tensor (self_ loaded)).2 = inr ["hk0"; "hk1"] /\
  (addresses Sample.from_tensor Sample.ip__str__ (self_ loaded)).2
  = inr ["4:10.0.0.1:8091"; "4:10.0.0.1:8091"].
Proof. repeat split; vm_compute; reflexivity. Qed.

(** ** Witnesses *)

Lemma sync_scales_scores_witness :
  sync Sample.to_tensor (Sample.ledger 42 Sample.two_neurons) None Sample.fresh
  = (Sample.synced, inr tt) /\
  entry Sample.synced "stake" 1 = Some (1 # 2)%Q /\
  entry Sample.synced "dividends" 1 = Some (inject_Z 0) /\
  entry Sample.synced "last_update" 1 = Some (inject_Z 9).
Proof.
  assert (Hrun : sync Sample.to_tensor (Sample.ledger 42 Sample.two_neurons) None
                      Sample.fresh = (Sample.synced, inr tt))
    by (vm_compute; reflexivity).
  split; [exact Hrun|].
  destruct (sync_scales_scores Sample.to_tensor (Sample.ledger 42 Sample.two_neurons)
              None Sample.fresh Sample.synced Sample.two_neurons 1
              (Sample.neuron 1 500000000 9 "hk1" [] []) Hrun eq_refl eq_refl)
    as (Hstake & _ & _ & _ & _ & _ & _ & Hdiv & Hlast).
  - repeat (apply Forall_cons; split; [unfold ledger_integer; simpl; lia|]).
    apply Forall_nil. exact I.
  - split; [exact Hstake|]. split; [|exact Hlast].
    apply Hdiv. simpl. lia.
Defined.

Lemma sync_shapes_witness :
  sync Sample.to_tensor (Sample.ledger 42 Sample.two_neurons) None Sample.fresh
  = (Sample.synced, inr tt) /\
  exists keys, (hotkeys Sample.from_tensor Sample.synced).2 = inr keys /\
               length keys = 2.
Proof.
  assert (Hrun : sync Sample.to_tensor (Sample.ledger 42 Sample.two_neurons) None
                      Sample.fresh = (Sample.synced, inr tt))
    by (vm_compute; reflexivity).
  split; [exact Hrun|].
  exact (proj2 (proj2 (proj2 (proj2 (proj2
    (sync_shapes Sample.to_tensor Sample.from_tensor
       (Sample.ledger 42 Sample.two_neurons) None Sample.fresh Sample.synced
       Sample.two_neurons Hrun eq_refl)))))).
Defined.

Lemma sync_empty_pairs_zero_row_witness :
  sync Sample.to_tensor (Sample.ledger 42 Sample.two_neurons) None Sample.fresh
  = (Sample.synced, inr tt) /\
  row Sample.synced "weights" 1 = Some [0%Q; 0%Q] /\
  row Sample.synced "bonds" 1 = Some [0%Q; 0%Q].
Proof.
  assert (Hrun : sync Sample.to_tensor (Sample.ledger 42 Sample.two_neurons) None
                      Sample.fresh = (Sample.synced, inr tt))
    by (vm_compute; reflexivity).
  split; [exact Hrun|].
  destruct (sync_empty_pairs_zero_row Sample.to_tensor
              (Sample.ledger 42 Sample.two_neurons) None Sample.fresh Sample.synced
              Sample.two_neurons 1 (Sample.neuron 1 500000000 9 "hk1" [] [])
              Hrun eq_refl eq_refl) as [Hw Hb].
  split; [exact (Hw eq_refl) | exact (Hb eq_refl)].
Defined.

Lemma sync_row_sums_witness :
  sync Sample.to_tensor (Sample.ledger 42 Sample.two_neurons) None Sample.fresh
  = (Sample.synced, inr tt) /\
  (exists w,
     row Sample.synced "weights" 0 = Some w /\
     (Qsum w == Qsum [cast float32 (3 # 10)])%Q) /\
  (exists b,
     row Sample.synced "bonds" 0 = Some b /\
     (Qsum b == Qsum [])%Q).
Proof.
  assert (Hrun : sync Sample.to_tensor (Sample.ledger 42 Sample.two_neurons) None
                      Sample.fresh = (Sample.synced, inr tt))
    by (vm_compute; reflexivity).
  split; [exact Hrun|].
  destruct (sync_row_sums Sample.to_tensor (Sample.ledger 42 Sample.two_neurons)
              None Sample.fresh Sample.synced Sample.two_neurons 0
              (Sample.neuron 0 1000000000 7 "hk0" [(1%Z, (3 # 10)%Q)] [])
              Hrun eq_refl eq_refl) as [Hweights Hbonds].
  split.
  - destruct Hweights as (w & Hrow & Hsum & _).
    + simpl. apply NoDup_singleton.
    + apply Forall_cons. split; [vm_compute; reflexivity|]. apply Forall_nil. exact I.
    + exists w. split; [exact Hrow | exact Hsum].
  - destruct Hbonds as (b & Hrow & Hsum & _).
    + simpl. apply NoDup_nil_2.
    + apply Forall_nil. exact I.
    + exists b. split; [exact Hrow | exact Hsum].
Defined.

Lemma load_missing_file_witness :
  load (Sample.ledger 42 []) None (Sample.world Sample.synced ∅)
  = (logged (Sample.world Sample.synced ∅)
       (LogWarning
          ("Did not load metagraph from path: "
           +:+ metagraph_path "/home/user" "kusanagi"
           +:+ ", file does not exist. Run metagraph.save() first.")),
     inr tt) /\
  self_ (load (Sample.ledger 42 []) None (Sample.world Sample.synced ∅)).1
  = Sample.synced.
Proof.
  apply (load_missing_file (Sample.ledger 42 []) None (Sample.world Sample.synced ∅)).
  reflexivity.
Defined.

Lemma load_malformed_file_witness :
  load_from_path "~/.bittensor/kusanagi.pt"
    (Sample.world Sample.synced {[ Sample.path := Malformed ]})
  = (Sample.world Sample.synced {[ Sample.path := Malformed ]},
     inl (UnpicklingError Sample.path)) /\
  load (Sample.ledger 42 []) None
    (Sample.world Sample.synced {[ Sample.path := Malformed ]})
  = (logged (Sample.world Sample.synced {[ Sample.path := Malformed ]})
       (LogException (UnpicklingError Sample.path)),
     inr tt).
Proof.
  destruct (load_malformed_file (Sample.ledger 42 []) None
              (Sample.world Sample.synced {[ Sample.path := Malformed ]})
              "~/.bittensor/kusanagi.pt") as (Hpath & _ & Hload).
  split.
  - apply Hpath. vm_compute. reflexivity.
  - apply (Hload "home/user").
    + reflexivity.
    + vm_compute. reflexivity.
Defined.

Lemma fresh_state_round_trip_fails_witness :
  state_dict Sample.fresh !! "uids" = None /\
  (load_from_state_dict (state_dict Sample.fresh) Sample.synced).2
  = inl (KeyError "uids") /\
  (load_from_state_dict (state_dict Sample.synced) Sample.synced).2 = inr tt /\
  (load_from_state_dict (state_dict Sample.reloaded) Sample.synced).2 = inr tt.
Proof.
  apply (fresh_state_round_trip_fails Sample.version Sample.to_tensor
           (Sample.ledger 42 Sample.two_neurons) None (state_dict Sample.synced)
           Sample.synced Sample.reloaded Sample.synced).
  - vm_compute. reflexivity.
  - vm_compute. reflexivity.
Defined.

(** * Further properties *)

(** Finds a literal key in a literal list of keys. *)
Ltac find_key :=
  repeat first [ by (apply elem_of_cons; left) | apply elem_of_cons; right ].

(** ** The derived views *)

Lemma n_item_run (self : Metagraph) :
  n_item self
  = (self, match _parameters self !! "n" with
           | Some t => item t
           | None => inl (AttributeError "n")
           end).
Proof.
  unfold n_item, getattr, bind, get, lift, ret, raise.
  by destruct (_parameters self !! "n").
Qed.

Lemma n_item_reads (self : Metagraph) (x : Q) :
  n_reads self x -> n_item self = (self, inr x).
Proof.
  intros (t & Ht & Hx). unfold n_item, getattr, bind, get, lift, ret.
  by rewrite Ht, <- Hx.
Qed.

Lemma n_item_ok (self self' : Metagraph) (x : Q) :
  n_item self = (self', inr x) -> self' = self /\ n_reads self x.
Proof.
  unfold n_item, getattr, bind, get, lift, ret, raise, n_reads.
  destruct (_parameters self !! "n") as [t|]; simpl; [|discriminate].
  intros [= <- Hx]. eauto.
Qed.

Section Views.

Variable from_tensor : tensor -> exn + Endpoint.t.
Variable ip__str__ : Z -> string -> Z -> string.

(** The three ways [endpoint_objs] returns. *)
Lemma endpoint_objs_zero (self : Metagraph) (x : Q) :
  n_reads self x -> Qeq_bool x 0 = true ->
  endpoint_objs from_tensor self = (self, inr []).
Proof.
  intros Hn Hx. unfold endpoint_objs, bind at 1.
  by rewrite (n_item_reads _ _ Hn), Hx.
Qed.

Lemma endpoint_objs_cached (self : Metagraph) (x : Q) (objs : list Endpoint.t) :
  n_reads self x -> Qeq_bool x 0 = false -> _endpoint_objs self = Some objs ->
  endpoint_objs from_tensor self = (self, inr objs).
Proof.
  intros Hn Hx Hc. unfold endpoint_objs, bind at 1.
  rewrite (n_item_reads _ _ Hn), Hx. unfold bind, get. by rewrite Hc.
Qed.

Lemma endpoint_objs_decoded (self : Metagraph) (x : Q) (t : tensor)
    (ts : list tensor) (objs : list Endpoint.t) :
  n_reads self x -> Qeq_bool x 0 = false -> _endpoint_objs self = None ->
  _parameters self !! "endpoints" = Some t ->
  iter_tensor t = inr ts ->
  comprehension from_tensor ts = inr objs ->
  endpoint_objs from_tensor self
  = ({| _parameters := _parameters self; _endpoint_objs := Some objs |}, inr objs).
Proof.
  intros Hn Hx Hc Ht Hts Hobjs. unfold endpoint_objs, bind at 1.
  rewrite (n_item_reads _ _ Hn), Hx.
  unfold bind, get, getattr, lift, set_endpoint_objs, modify, ret.
  rewrite Hc. simpl. unfold bind, get. rewrite Ht. simpl. rewrite Hts.
  by rewrite Hobjs.
Qed.

(** A call that returns has taken one of them. *)
Lemma endpoint_objs_ok (self self' : Metagraph) (objs : list Endpoint.t) :
  endpoint_objs from_tensor self = (self', inr objs) ->
  exists x, n_reads self x /\
    ((Qeq_bool x 0 = true /\ self' = self /\ objs = []) \/
     (Qeq_bool x 0 = false /\ self' = self /\ _endpoint_objs self = Some objs) \/
     (Qeq_bool x 0 = false /\ _endpoint_objs self = None /\
      self' = {| _parameters := _parameters self; _endpoint_objs := Some objs |})).
Proof.
  unfold endpoint_objs, bind at 1.
  destruct (n_item self) as [s [e|x]] eqn:Hn; [discriminate|].
  apply n_item_ok in Hn as [-> Hn]. intros H. exists x. split; [done|].
  destruct (Qeq_bool x 0) eqn:Hx.
  - injection H as <- <-. by left.
  - right. revert H.
    unfold bind, get, getattr, lift, set_endpoint_objs, modify, ret, raise.
    destruct (_endpoint_objs self) as [cached|] eqn:Hc.
    + intros [= <- <-]. by left.
    + unfold bind, get.
      destruct (_parameters self !! "endpoints") as [t|]; simpl; [|discriminate].
      destruct (iter_tensor t) as [?|ts]; [discriminate|].
      destruct (comprehension from_tensor ts) as [?|decoded]; [discriminate|].
      intros [= <- <-]. by right.
Qed.

(** Each view is [endpoint_objs] behind the same test on [n]. *)
Lemma hotkeys_run (self : Metagraph) (x : Q) :
  n_reads self x ->
  hotkeys from_tensor self
  = if Qeq_bool x 0 then (self, inr [])
    else match endpoint_objs from_tensor self with
         | (s, inr objs) => (s, inr (map Endpoint.hotkey objs))
         | (s, inl e) => (s, inl e)
         end.
Proof.
  intros Hn. unfold hotkeys, bind at 1. rewrite (n_item_reads _ _ Hn).
  destruct (Qeq_bool x 0); [done|]. unfold bind, ret.
  by destruct (endpoint_objs from_tensor self) as [s [e|objs]].
Qed.

Lemma coldkeys_run (self : Metagraph) (x : Q) :
  n_reads self x ->
  coldkeys from_tensor self
  = if Qeq_bool x 0 then (self, inr [])
    else match endpoint_objs from_tensor self with
         | (s, inr objs) => (s, inr (map Endpoint.coldkey objs))
         | (s, inl e) => (s, inl e)
         end.
Proof.
  intros Hn. unfold coldkeys, bind at 1. rewrite (n_item_reads _ _ Hn).
  destruct (Qeq_bool x 0); [done|]. unfold bind, ret.
  by destruct (endpoint_objs from_tensor self) as [s [e|objs]].
Qed.

Lemma modalities_run (self : Metagraph) (x : Q) :
  n_reads self x ->
  modalities from_tensor self
  = if Qeq_bool x 0 then (self, inr [])
    else match endpoint_objs from_tensor self with
         | (s, inr objs) => (s, inr (map Endpoint.modality objs))
         | (s, inl e) => (s, inl e)
         end.
Proof.
  intros Hn. unfold modalities, bind at 1. rewrite (n_item_reads _ _ Hn).
  destruct (Qeq_bool x 0); [done|]. unfold bind, ret.
  by destruct (endpoint_objs from_tensor self) as [s [e|objs]].
Qed.

Lemma addresses_run (self : Metagraph) (x : Q) :
  n_reads self x ->
  addresses from_tensor ip__str__ self
  = if Qeq_bool x 0 then (self, inr [])
    else match endpoint_objs from_tensor self with
         | (s, inr objs) =>
             (s, inr (map (fun neuron =>
                             ip__str__ (Endpoint.ip_type neuron) (Endpoint.ip neuron)
                                       (Endpoint.port neuron)) objs))
         | (s, inl e) => (s, inl e)
         end.
Proof.
  intros Hn. unfold addresses, bind at 1. rewrite (n_item_reads _ _ Hn).
  destruct (Qeq_bool x 0); [done|]. unfold bind, ret.
  by destruct (endpoint_objs from_tensor self) as [s [e|objs]].
Qed.

(** X1: while [n] reads zero, [endpoint_objs] and the four views return the
    empty list and leave the object as it is, whatever the cache and the
    endpoints table hold. *)
Theorem views_empty_when_n_zero (self : Metagraph) (x : Q) :
  n_reads self x -> (x == 0)%Q ->
  endpoint_objs from_tensor self = (self, inr []) /\
  hotkeys from_tensor self = (self, inr []) /\
  coldkeys from_tensor self = (self, inr []) /\
  modalities from_tensor self = (self, inr []) /\
  addresses from_tensor ip__str__ self = (self, inr []).
Proof.
  intros Hn Hx. apply Qeq_bool_iff in Hx.
  rewrite (hotkeys_run _ _ Hn), (coldkeys_run _ _ Hn), (modalities_run _ _ Hn),
    (addresses_run _ _ Hn), Hx.
  split; [by eapply endpoint_objs_zero|done].
Qed.

(** What the views return depends on the object through [n], the endpoints
    table and the cache only. *)
Lemma endpoint_objs_depends (s1 s2 : Metagraph) :
  _parameters s1 !! "n" = _parameters s2 !! "n" ->
  _parameters s1 !! "endpoints" = _parameters s2 !! "endpoints" ->
  _endpoint_objs s1 = _endpoint_objs s2 ->
  (endpoint_objs from_tensor s1).2 = (endpoint_objs from_tensor s2).2.
Proof.
  intros Hn He Hc.
  unfold endpoint_objs, n_item, getattr, bind, get, lift, set_endpoint_objs,
    modify, ret, raise.
  rewrite Hn.
  destruct (_parameters s2 !! "n") as [t|]; simpl; [|done].
  destruct (item t) as [?|x]; [done|].
  destruct (Qeq_bool x 0); [done|]. rewrite Hc.
  destruct (_endpoint_objs s2); simpl; [done|]. unfold bind, get. rewrite He.
  destruct (_parameters s2 !! "endpoints") as [te|]; simpl; [|done].
  destruct (iter_tensor te) as [?|ts]; [done|].
  by destruct (comprehension from_tensor ts).
Qed.

Lemma hotkeys_depends (s1 s2 : Metagraph) :
  _parameters s1 !! "n" = _parameters s2 !! "n" ->
  _parameters s1 !! "endpoints" = _parameters s2 !! "endpoints" ->
  _endpoint_objs s1 = _endpoint_objs s2 ->
  (hotkeys from_tensor s1).2 = (hotkeys from_tensor s2).2.
Proof.
  intros Hn He Hc.
  pose proof (endpoint_objs_depends s1 s2 Hn He Hc) as Hobjs.
  unfold hotkeys, bind at 1. unfold bind at 2.
  rewrite !n_item_run, Hn.
  destruct (_parameters s2 !! "n") as [t|]; [|done].
  destruct (item t) as [?|x]; [done|].
  destruct (Qeq_bool x 0); [done|]. unfold bind, ret.
  destruct (endpoint_objs from_tensor s1) as [? [?|?]],
    (endpoint_objs from_tensor s2) as [? [?|?]]; simpl in *; congruence.
Qed.

(** X3: a successful load drops the cache of the receiving object: the keys
    that [hotkeys] then returns are those decoded from the bundle alone,
    whatever object received it. *)
Theorem load_invalidates_cache (sd : gmap string tensor) (target : Metagraph) :
  has_fields state_fields sd ->
  _endpoint_objs (load_from_state_dict sd target).1 = None /\
  (hotkeys from_tensor (load_from_state_dict sd target).1).2
  = (hotkeys from_tensor {| _parameters := sd; _endpoint_objs := None |}).2.
Proof.
  intros H.
  destruct (load_from_state_dict_fields sd target H) as (Hc & Hin & _).
  split; [exact Hc|].
  apply hotkeys_depends; simpl.
  - apply Hin. unfold state_fields. find_key.
  - apply Hin. unfold state_fields. find_key.
  - exact Hc.
Qed.

End Views.

(** X2: [endpoint_objs] is memoised.  A call that returns a list leaves the
    parameters as they were and, unless [n] reads zero, leaves that list in
    the cache.  From then on [endpoint_objs] returns the same list without
    decoding anything, whatever the decoder would do, and [hotkeys] reads
    its keys off that list. *)
Theorem endpoint_objs_memoised (from_tensor : tensor -> exn + Endpoint.t)
    (self self' : Metagraph) (objs : list Endpoint.t) :
  endpoint_objs from_tensor self = (self', inr objs) ->
  _parameters self' = _parameters self /\
  (exists x, n_reads self x /\
             if Qeq_bool x 0 then self' = self /\ objs = []
             else _endpoint_objs self' = Some objs) /\
  (forall decoder : tensor -> exn + Endpoint.t,
     endpoint_objs decoder self' = (self', inr objs) /\
     hotkeys decoder self' = (self', inr (map Endpoint.hotkey objs))).
Proof.
  intros H. apply endpoint_objs_ok in H
    as (x & Hn & [(Hx & -> & ->) | [(Hx & -> & Hc) | (Hx & Hc & ->)]]).
  - split; [done|]. split; [exists x; by rewrite Hx|]. intros decoder.
    rewrite (hotkeys_run _ _ _ Hn), Hx.
    split; [by eapply endpoint_objs_zero|done].
  - split; [done|]. split; [exists x; by rewrite Hx|]. intros decoder.
    by rewrite (hotkeys_run _ _ _ Hn), Hx, (endpoint_objs_cached _ _ _ _ Hn Hx Hc).
  - split; [done|]. split; [exists x; by rewrite Hx|]. intros decoder.
    assert (Hn' : n_reads {| _parameters := _parameters self;
                             _endpoint_objs := Some objs |} x) by exact Hn.
    by rewrite (hotkeys_run _ _ _ Hn'), Hx,
      (endpoint_objs_cached _ _ _ objs Hn' Hx eq_refl).
Qed.

(** ** A bundle with a missing key *)

Lemma load_fields_app (sd : gmap string tensor) (pre post : list string)
    (self : Metagraph) :
  load_fields sd (pre ++ post) self
  = match load_fields sd pre self with
    | (s, inr _) => load_fields sd post s
    | (s, inl e) => (s, inl e)
    end.
Proof.
  revert self. induction pre as [|k pre IH]; intros self; simpl; [done|].
  unfold bind.
  destruct (load_field sd k self) as [s [e|[]]]; [done|]. apply IH.
Qed.

(** X4: [load_from_state_dict] stops at the first of its keys that the bundle
    does not bind.  The keys before it are already assigned from the bundle,
    every other attribute and the cache are as they were, and the call raises
    [KeyError] on that key. *)
Theorem load_from_state_dict_first_missing (sd : gmap string tensor)
    (self : Metagraph) (pre post : list string) (k : string) :
  state_fields = pre ++ k :: post ->
  has_fields pre sd ->
  sd !! k = None ->
  (load_from_state_dict sd self).2 = inl (KeyError k) /\
  _endpoint_objs (load_from_state_dict sd self).1 = _endpoint_objs self /\
  (forall key, key ∈ pre ->
     _parameters (load_from_state_dict sd self).1 !! key = sd !! key) /\
  (forall key, key ∉ pre ->
     _parameters (load_from_state_dict sd self).1 !! key = _parameters self !! key).
Proof.
  intros Hsplit Hpre Hk.
  rewrite load_from_state_dict_unfold, Hsplit. unfold bind.
  rewrite load_fields_app.
  destruct (load_fields_bound sd pre self Hpre) as (s & -> & Hc & Hin & Hout).
  simpl. unfold bind, load_field, getitem, lift. rewrite Hk. simpl.
  done.
Qed.

(** ** The views after [sync] and after a reload *)

Lemma map_cast_int64_integers (zs : list Z) :
  map (cast int64) (map inject_Z zs) = map inject_Z zs.
Proof.
  induction zs as [|z zs IH]; [done|].
  change (cast int64 (inject_Z z) :: map (cast int64) (map inject_Z zs)
          = inject_Z z :: map inject_Z zs).
  by rewrite IH, cast_int64_integer.
Qed.

Section Views_after_sync.

Variable to_tensor : Endpoint.t -> exn + list Z.
Variable from_tensor : tensor -> exn + Endpoint.t.
Variable ip__str__ : Z -> string -> Z -> string.

Lemma endpoint_objs_population (self : Metagraph) (objs : list Endpoint.t) :
  _parameters self !! "n"
  = Some (T0 (cast float32 (inject_Z (Z.of_nat (length objs))))) ->
  _endpoint_objs self = Some objs ->
  endpoint_objs from_tensor self = (self, inr objs).
Proof.
  intros Hn Hc.
  assert (Hreads : n_reads self (cast float32 (inject_Z (Z.of_nat (length objs)))))
    by (by eexists).
  pose proof (Qeq_bool_population (length objs)) as Hx.
  destruct objs as [|o objs].
  - by eapply endpoint_objs_zero.
  - by eapply endpoint_objs_cached.
Qed.

Lemma sync_hotkeys (subtensor : Subtensor.t) (block : option Z)
    (self self' : Metagraph) (neurons : list Neuron.t) :
  sync to_tensor subtensor block self = (self', inr tt) ->
  Subtensor.neurons subtensor = inr neurons ->
  hotkeys from_tensor self' = (self', inr (map Neuron.hotkey neurons)).
Proof.
  intros Hsync Hns.
  apply sync_ok in Hsync as (blk & ns & es & ws & bs & _ & Hns' & _ & _ & _ & ->).
  rewrite Hns in Hns'. injection Hns' as <-.
  destruct (published (length neurons) blk (extend Locals.empty neurons es ws bs)
              {| _parameters := _parameters self;
                 _endpoint_objs := Some (map endpoint_of neurons) |})
    as (Hcache & Hn & _).
  rewrite (hotkeys_cached from_tensor _ (map endpoint_of neurons));
    [by rewrite <- list_fmap_compose|by rewrite length_map|exact Hcache].
Qed.

(** X5: after a successful [sync] the vector of uids, the hotkeys, the
    coldkeys, the modalities and the addresses list the records of the
    ledger's answer, in the order of the answer.  The uids are stored as
    [float32], which keeps every uid below 2^24 as it is. *)
Theorem sync_views_follow_ledger (subtensor : Subtensor.t) (block : option Z)
    (self self' : Metagraph) (neurons : list Neuron.t) :
  sync to_tensor subtensor block self = (self', inr tt) ->
  Subtensor.neurons subtensor = inr neurons ->
  _parameters self' !! "uids"
  = Some (T1 (map (fun n => cast float32 (inject_Z (Neuron.uid n))) neurons)) /\
  (Forall (fun n => (Z.abs (Neuron.uid n) < 2 ^ 24)%Z) neurons ->
   _parameters self' !! "uids"
   = Some (T1 (map (fun n => inject_Z (Neuron.uid n)) neurons))) /\
  hotkeys from_tensor self' = (self', inr (map Neuron.hotkey neurons)) /\
  coldkeys from_tensor self' = (self', inr (map Neuron.coldkey neurons)) /\
  modalities from_tensor self' = (self', inr (map Neuron.modality neurons)) /\
  addresses from_tensor ip__str__ self'
  = (self', inr (map (fun n => ip__str__ (Neuron.ip_type n) (Neuron.ip n)
                                         (Neuron.port n)) neurons)).
Proof.
  intros Hsync Hns.
  apply sync_ok in Hsync as (blk & ns & es & ws & bs & _ & Hns' & _ & _ & _ & ->).
  rewrite Hns in Hns'. injection Hns' as <-.
  destruct (published (length neurons) blk (extend Locals.empty neurons es ws bs)
              {| _parameters := _parameters self;
                 _endpoint_objs := Some (map endpoint_of neurons) |})
    as (Hcache & Hn & _ & Huids & _).
  set (self' := (set_tensors_and_params _ _ _ _).1) in *.
  cbn [extend Locals.uids Locals.empty app] in Huids.
  rewrite <- list_fmap_compose in Huids.
  split; [exact Huids|]. split.
  { intros Hsmall. rewrite Huids. do 2 f_equal.
    apply map_ext_Forall. apply (Forall_impl _ _ _ Hsmall).
    intros n Hn'. by apply cast_float32_exact. }
  assert (Hobjs : endpoint_objs from_tensor self'
                  = (self', inr (map endpoint_of neurons))).
  { apply endpoint_objs_population; [by rewrite length_map|exact Hcache]. }
  assert (Hreads : n_reads self' (cast float32 (inject_Z (Z.of_nat (length neurons)))))
    by (by eexists).
  rewrite (hotkeys_run _ _ _ Hreads), (coldkeys_run _ _ _ Hreads),
    (modalities_run _ _ _ Hreads), (addresses_run _ _ _ _ Hreads), Hobjs,
    Qeq_bool_population.
  case_bool_decide as Hlen.
  - by destruct neurons.
  - by rewrite <- !list_fmap_compose.
Qed.

End Views_after_sync.

Section Views_after_reload.

Variable to_tensor : Endpoint.t -> exn + list Z.
Variable from_tensor : tensor -> exn + Endpoint.t.

(** The rows of the endpoints table decode to the endpoints of the records. *)
Lemma decode_packed (ns : list Neuron.t) (es : list (list Q)) :
  Forall (decodable to_tensor from_tensor) ns ->
  Forall2 (packed_as to_tensor) ns es ->
  comprehension from_tensor (map T1 (map (map (cast int64)) es))
  = inr (map endpoint_of ns).
Proof.
  intros Hdec HF. induction HF as [|n e ns es (packed & Hp & ->) HF IH]; [done|].
  apply Forall_cons in Hdec as [(packed' & Hp' & Hd) Hdec].
  rewrite Hp in Hp'. injection Hp' as <-.
  simpl. rewrite map_cast_int64_integers, Hd.
  by rewrite (IH Hdec).
Qed.

(** X6: the views survive the round trip through a state bundle.  When an
    object that had the attributes of [clear] is synced with success and its
    bundle is loaded into any object, [hotkeys], [coldkeys] and [modalities]
    on the receiving object return those of the ledger's answer, provided the
    codec decodes the endpoints it packed. *)
Theorem reload_recovers_views (subtensor : Subtensor.t) (block : option Z)
    (self synced target : Metagraph) (neurons : list Neuron.t) :
  has_fields cleared_fields (state_dict self) ->
  sync to_tensor subtensor block self = (synced, inr tt) ->
  Subtensor.neurons subtensor = inr neurons ->
  Forall (decodable to_tensor from_tensor) neurons ->
  (load_from_state_dict (state_dict synced) target).2 = inr tt /\
  (hotkeys from_tensor (load_from_state_dict (state_dict synced) target).1).2
  = inr (map Neuron.hotkey neurons) /\
  (coldkeys from_tensor (load_from_state_dict (state_dict synced) target).1).2
  = inr (map Neuron.coldkey neurons) /\
  (modalities from_tensor (load_from_state_dict (state_dict synced) target).1).2
  = inr (map Neuron.modality neurons).
Proof.
  intros Hself Hsync Hns Hdec.
  pose proof (sync_has_state_fields _ _ _ _ _ Hsync Hself) as Hfields.
  split; [by apply load_from_state_dict_ok_iff|].
  destruct (load_from_state_dict_fields (state_dict synced) target Hfields)
    as (Hc & Hin & _).
  set (loaded := (load_from_state_dict (state_dict synced) target).1) in *.
  apply sync_ok in Hsync as (blk & ns & es & ws & bs & _ & Hns' & Hes & _ & _ & ->).
  rewrite Hns in Hns'. injection Hns' as <-.
  destruct (published (length neurons) blk (extend Locals.empty neurons es ws bs)
              {| _parameters := _parameters self;
                 _endpoint_objs := Some (map endpoint_of neurons) |})
    as (_ & Hn & _ & _ & _ & _ & _ & _ & _ & _ & _ & _ & _ & _ & _ & He).
  assert (Hn' : _parameters loaded !! "n"
                = Some (T0 (cast float32 (inject_Z (Z.of_nat (length neurons)))))).
  { rewrite Hin; [exact Hn|]. unfold state_fields. find_key. }
  assert (He' : _parameters loaded !! "endpoints"
                = Some (tensor_of_rows int64 es)).
  { rewrite Hin; [exact He|]. unfold state_fields. find_key. }
  assert (Hreads : n_reads loaded
                     (cast float32 (inject_Z (Z.of_nat (length neurons)))))
    by (by eexists).
  rewrite (hotkeys_run from_tensor _ _ Hreads), (coldkeys_run from_tensor _ _ Hreads),
    (modalities_run from_tensor _ _ Hreads), Qeq_bool_population.
  case_bool_decide as Hlen; [by destruct neurons|].
  assert (Hes' : es <> []).
  { intros ->. apply Forall2_length in Hes. simpl in Hes. done. }
  assert (Hiter : iter_tensor (tensor_of_rows int64 es)
                  = inr (map T1 (map (map (cast int64)) es)))
    by (by destruct es).
  assert (Hx : Qeq_bool (cast float32 (inject_Z (Z.of_nat (length neurons)))) 0
               = false)
    by (rewrite Qeq_bool_population; by apply bool_decide_eq_false_2).
  rewrite (endpoint_objs_decoded from_tensor loaded _ _ _ _ Hreads Hx Hc He' Hiter
             (decode_packed _ _ Hdec Hes)).
  by rewrite <- !list_fmap_compose.
Qed.

End Views_after_reload.

(** ** When [sync] succeeds, and what it leaves alone *)

Lemma dense_row_in_range (n_total : nat) (pairs : list (Z * Q)) (dense : list Q) :
  dense_row n_total pairs = inr dense ->
  Forall (fun p => (0 <= p.1 < Z.of_nat n_total)%Z) pairs.
Proof.
  unfold dense_row, convert_weight_uids_and_vals_to_tensor.
  case_bool_decide as Hlen; intros H.
  - rewrite zip_unzip in H. apply write_pairs_in_range in H.
    by rewrite length_replicate in H.
  - destruct pairs; simpl in *; [constructor|lia].
Qed.

Lemma Forall2_functional {A B} (R : A -> B -> Prop) (xs : list A) (ys ys' : list B) :
  (forall x y y', R x y -> R x y' -> y = y') ->
  Forall2 R xs ys -> Forall2 R xs ys' -> ys = ys'.
Proof.
  intros Hfun H. revert ys'.
  induction H as [|x y xs ys Hxy _ IH]; intros ys' H'; inversion H'; subst; [done|].
  f_equal; [by eapply Hfun|by apply IH].
Qed.

Lemma metagraph_eq (a b : Metagraph) :
  _parameters a = _parameters b -> _endpoint_objs a = _endpoint_objs b -> a = b.
Proof. destruct a, b. simpl. by intros -> ->. Qed.

(** The assignments that close [sync] write each key once: doing them again
    with the same values changes nothing. *)
Lemma set_tensors_and_params_again (n_total : nat) (block : Z) (l : Locals.t)
    (self : Metagraph) :
  (set_tensors_and_params n_total block l
     (set_tensors_and_params n_total block l self).1).1
  = (set_tensors_and_params n_total block l self).1.
Proof.
  pose proof (published n_total block l self) as PA.
  pose proof (published n_total block l
                (set_tensors_and_params n_total block l self).1) as PB.
  cbv zeta in PA, PB.
  set (A := (set_tensors_and_params n_total block l self).1) in *.
  set (B := (set_tensors_and_params n_total block l A).1) in *.
  destruct PA as (_ & A1 & A2 & A3 & A4 & A5 & A6 & A7 & A8 & A9 & A10 & A11
                  & A12 & A13 & A14 & A15).
  destruct PB as (Hc & B1 & B2 & B3 & B4 & B5 & B6 & B7 & B8 & B9 & B10 & B11
                  & B12 & B13 & B14 & B15).
  apply metagraph_eq; [|exact Hc].
  apply map_eq. intros key.
  destruct (decide (key ∈ synced_fields)) as [Hkey|Hkey].
  - unfold synced_fields in Hkey.
    repeat (apply elem_of_cons in Hkey as [-> | Hkey]; [congruence|]).
    by apply elem_of_nil in Hkey.
  - by apply published_other.
Qed.

Section Sync_more.

Variable to_tensor : Endpoint.t -> exn + list Z.

Lemma sync_ok_well_formed (subtensor : Subtensor.t) (block : option Z)
    (self self' : Metagraph) (ns : list Neuron.t) :
  sync to_tensor subtensor block self = (self', inr tt) ->
  Subtensor.neurons subtensor = inr ns ->
  Forall (well_formed to_tensor (length ns)) ns.
Proof.
  intros Hsync Hns.
  apply sync_ok in Hsync as (blk & ns' & es & ws & bs & _ & Hns' & Hes & Hws & Hbs & _).
  rewrite Hns in Hns'. injection Hns' as <-.
  apply Forall_lookup. intros i n Hi.
  destruct (Forall2_lookup_l _ _ _ _ _ Hes Hi) as (e & _ & packed & Hp & _).
  destruct (Forall2_lookup_l _ _ _ _ _ Hws Hi) as (w & _ & Hw).
  destruct (Forall2_lookup_l _ _ _ _ _ Hbs Hi) as (b & _ & Hb).
  split; [by eexists|].
  split; by eapply dense_row_in_range.
Qed.

(** X10: [sync] returns normally only if the ledger answered both queries
    and every record of the answer is well formed for the population: its
    endpoint can be packed and its weights and bonds name peers inside the
    population.  On any other answer it raises. *)
Theorem sync_succeeds_only_if (subtensor : Subtensor.t) (block : option Z)
    (self : Metagraph) :
  (sync to_tensor subtensor block self).2 = inr tt ->
  exists blk ns,
    Subtensor.get_current_block subtensor = inr blk /\
    Subtensor.neurons subtensor = inr ns /\
    Forall (well_formed to_tensor (length ns)) ns.
Proof.
  intros H. apply run_outcome in H.
  pose proof (sync_ok _ _ _ _ _ H) as (blk & ns & _ & _ & _ & Hblk & Hns & _).
  exists blk, ns. split; [done|]. split; [done|].
  by eapply sync_ok_well_formed.
Qed.

(** X7: [sync] is idempotent under an unchanged ledger: after a successful
    pass, a second pass with the same answers succeeds and leaves the object,
    cache included, exactly as the first one left it. *)
Theorem sync_twice (subtensor : Subtensor.t) (b1 b2 : option Z)
    (self self' : Metagraph) :
  sync to_tensor subtensor b1 self = (self', inr tt) ->
  sync to_tensor subtensor b2 self' = (self', inr tt).
Proof.
  intros H1.
  pose proof (sync_ok _ _ _ _ _ H1)
    as (blk & ns & es & ws & bs & Hblk & Hns & Hes & Hws & Hbs & Hself').
  destruct (sync_total to_tensor subtensor b2 self' blk ns Hblk Hns
              (sync_ok_well_formed _ _ _ _ _ H1 Hns)) as [again H2].
  rewrite H2. f_equal.
  apply sync_ok in H2
    as (blk' & ns' & es' & ws' & bs' & Hblk' & Hns' & Hes' & Hws' & Hbs' & ->).
  rewrite Hblk in Hblk'. injection Hblk' as <-.
  rewrite Hns in Hns'. injection Hns' as <-.
  assert (es' = es) as ->.
  { eapply Forall2_functional; [|exact Hes'|exact Hes].
    intros n y y' (p & Hp & ->) (p' & Hp' & ->). congruence. }
  assert (ws' = ws) as ->.
  { eapply Forall2_functional; [|exact Hws'|exact Hws].
    unfold weights_row_of. intros; congruence. }
  assert (bs' = bs) as ->.
  { eapply Forall2_functional; [|exact Hbs'|exact Hbs].
    unfold bonds_row_of. intros; congruence. }
  assert (Heta : {| _parameters := _parameters self';
                    _endpoint_objs := Some (map endpoint_of ns) |} = self').
  { apply metagraph_eq; [done|]. simpl. rewrite Hself'. symmetry.
    apply published. }
  rewrite Heta, Hself'. apply set_tensors_and_params_again.
Qed.

(** X8: [sync] never touches an attribute outside the fifteen it assigns,
    whether it succeeds or raises: [version], [tau] and the [lastupdate] of
    [clear] are after the call what they were before. *)
Theorem sync_keeps_other_attributes (subtensor : Subtensor.t) (block : option Z)
    (self : Metagraph) (key : string) :
  key ∉ synced_fields ->
  _parameters (sync to_tensor subtensor block self).1 !! key
  = _parameters self !! key.
Proof.
  intros Hkey.
  destruct (sync to_tensor subtensor block self) as [self' [e|[]]] eqn:H.
  - cbn [fst]. by rewrite (sync_raise_parameters _ _ _ _ _ _ H).
  - cbn [fst].
    apply sync_ok in H as (blk & ns & es & ws & bs & _ & _ & _ & _ & _ & ->).
    by rewrite published_other.
Qed.

(** X9: a pass that raises leaves every tensor as it was: the state bundle,
    and so every entry of every vector and every row of every matrix, is the
    one from before the call. *)
Theorem failed_sync_keeps_tensors (subtensor : Subtensor.t) (block : option Z)
    (self self' : Metagraph) (e : exn) :
  sync to_tensor subtensor block self = (self', inl e) ->
  state_dict self' = state_dict self /\
  (forall key i, entry self' key i = entry self key i) /\
  (forall key i, row self' key i = row self key i).
Proof.
  intros H. apply sync_raise_parameters in H.
  unfold state_dict, entry, row. by rewrite H.
Qed.

End Sync_more.

(** ** Paths *)

Lemma append_assoc (a b c : string) : (a +:+ b) +:+ c = a +:+ (b +:+ c).
Proof.
  induction a as [|x a IH]; [reflexivity|].
  change (String x ((a +:+ b) +:+ c) = String x (a +:+ (b +:+ c))).
  by rewrite IH.
Qed.

Lemma collapse_slashes_cons (c c' : ascii) (r : string) :
  collapse_slashes (String c (String c' r))
  = if bool_decide (c = "/"%char /\ c' = "/"%char)
    then collapse_slashes (String c' r)
    else String c (collapse_slashes (String c' r)).
Proof. reflexivity. Qed.

(** Two slashes in a row name the same file as one. *)
Lemma collapse_slashes_double (a b : string) :
  collapse_slashes (a +:+ String "/" (String "/" b))
  = collapse_slashes (a +:+ String "/" b).
Proof.
  induction a as [|c a IH].
  - change (collapse_slashes (String "/" (String "/" b))
            = collapse_slashes (String "/" b)).
    by rewrite collapse_slashes_cons, bool_decide_eq_true_2.
  - destruct a as [|c' a].
    + change (collapse_slashes (String "/" (String "/" b))
              = collapse_slashes (String "/" b)) in IH.
      change (collapse_slashes (String c (String "/" (String "/" b)))
              = collapse_slashes (String c (String "/" b))).
      by rewrite (collapse_slashes_cons c "/" (String "/" b)),
        (collapse_slashes_cons c "/" b), IH.
    + change (collapse_slashes (String c' (a +:+ String "/" (String "/" b)))
              = collapse_slashes (String c' (a +:+ String "/" b))) in IH.
      change (collapse_slashes (String c (String c' (a +:+ String "/" (String "/" b))))
              = collapse_slashes (String c (String c' (a +:+ String "/" b)))).
      by rewrite !collapse_slashes_cons, IH.
Qed.

Lemma saved_path_unfold (home name : string) :
  saved_path home name
  = (rstrip_slashes home +:+ "/.bittensor/") +:+ "/" +:+ name +:+ ".pt".
Proof.
  unfold saved_path. f_equal. apply expanduser_home.
Qed.

(** [save] and [load] spell the path of a network differently, and mean the
    same file. *)
Lemma saved_path_metagraph_path (home name : string) :
  collapse_slashes (saved_path home name)
  = collapse_slashes (metagraph_path home name).
Proof.
  rewrite saved_path_unfold, metagraph_path_unfold.
  change ((rstrip_slashes home +:+ "/.bittensor/") +:+ "/" +:+ name +:+ ".pt")
    with ((rstrip_slashes home +:+ ("/.bittensor" +:+ "/"))
          +:+ String "/" (name +:+ ".pt")).
  change (rstrip_slashes home +:+ "/.bittensor/" +:+ name +:+ ".pt")
    with (rstrip_slashes home +:+ ("/.bittensor" +:+ String "/" (name +:+ ".pt"))).
  rewrite <- !append_assoc, (append_assoc (rstrip_slashes home +:+ "/.bittensor") "/").
  apply collapse_slashes_double.
Qed.

(** ** What the methods do to the world *)

Lemma with_self_same (w : World) : with_self w (self_ w) = w.
Proof. by destruct w. Qed.

Lemma save_run (subtensor : Subtensor.t) (network : option string) (w : World) :
  save subtensor network w
  = (with_file w (saved_path (home w) (network_name subtensor network))
       (state_dict (self_ w)), inr tt).
Proof.
  unfold save, save_to_path, torch_save, bind, get, modify, with_file, saved_path.
  fold (network_name subtensor network). cbv zeta.
  change "~/.bittensor/" with (String "~" (String "/" ".bittensor/")).
  by rewrite !expanduser_home.
Qed.

Lemma load_frame (subtensor : Subtensor.t) (network : option string) (w : World) :
  (load subtensor network w).2 = inr tt /\
  filesystem (load subtensor network w).1 = filesystem w /\
  home (load subtensor network w).1 = home w /\
  passwd (load subtensor network w).1 = passwd w.
Proof.
  rewrite load_run.
  destruct (isfile w _); [|done].
  rewrite load_from_path_run.
  destruct (filesystem w !! _) as [[sd|]|]; [|done..].
  by destruct (load_from_state_dict sd (self_ w)) as [s [e|[]]].
Qed.

(** X11: [load] never raises, never changes a file or the home directory,
    and writes at most one line to the log. *)
Theorem load_is_quiet (subtensor : Subtensor.t) (network : option string)
    (w : World) :
  (load subtensor network w).2 = inr tt /\
  filesystem (load subtensor network w).1 = filesystem w /\
  home (load subtensor network w).1 = home w /\
  (logger (load subtensor network w).1 = logger w \/
   exists ev, logger (load subtensor network w).1 = logger w ++ [ev]).
Proof.
  rewrite load_run.
  destruct (isfile w _); [|simpl; eauto 6].
  rewrite load_from_path_run.
  destruct (filesystem w !! _) as [[sd|]|]; [|simpl; eauto 6..].
  destruct (load_from_state_dict sd (self_ w)) as [s [e|[]]]; simpl; eauto 6.
Qed.

(** X12: what [save] writes [load] reads back.  A [save] that returned has
    put the bundle of the object in the file of the network and has changed
    no other file, nor the object, the log or the home directory.  Under an
    absolute home directory, when the saved object has the seventeen keys,
    [load] for that network, by any object, then returns normally without a
    line in the log and gives that object each of the seventeen keys as
    saved, its cache reset. *)
Theorem save_then_load_restores (subtensor : Subtensor.t) (network : option string)
    (w saved : World) :
  save subtensor network w = (saved, inr tt) ->
  self_ saved = self_ w /\
  logger saved = logger w /\
  home saved = home w /\
  filesystem saved
  = <[collapse_slashes (saved_path (home w) (network_name subtensor network))
      := Pickle (state_dict (self_ w))]> (filesystem w) /\
  (forall (target : Metagraph) (rest : string),
     home w = String "/" rest ->
     has_fields state_fields (state_dict (self_ w)) ->
     load subtensor network (with_self saved target)
     = (with_self saved (load_from_state_dict (state_dict (self_ w)) target).1,
        inr tt) /\
     _endpoint_objs (load_from_state_dict (state_dict (self_ w)) target).1 = None /\
     forall key, key ∈ state_fields ->
       _parameters (load_from_state_dict (state_dict (self_ w)) target).1 !! key
       = _parameters (self_ w) !! key).
Proof.
  rewrite save_run. intros [= <-].
  split; [done|]. split; [done|]. split; [done|]. split; [done|].
  intros target rest Hhome Hfields.
  destruct (state_dict_round_trip (self_ w) target Hfields) as [Hok Hkeys].
  destruct (load_from_state_dict_fields _ target Hfields) as (Hcache & _).
  split; [|done].
  set (name := network_name subtensor network).
  set (w1 := with_self (with_file w (saved_path (home w) name)
                          (state_dict (self_ w))) target).
  assert (Hfile : filesystem w1 !! collapse_slashes (metagraph_path (home w1) name)
                  = Some (Pickle (state_dict (self_ w)))).
  { unfold w1. simpl. rewrite saved_path_metagraph_path. apply lookup_insert_eq. }
  assert (Hexp : expanduser (passwd w1) (home w1) (metagraph_path (home w1) name)
                 = metagraph_path (home w1) name).
  { unfold w1. simpl. rewrite Hhome. apply expanduser_metagraph_path. }
  rewrite load_run. fold name.
  rewrite (isfile_present _ _ _ Hfile), load_from_path_run, Hexp, Hfile.
  simpl. rewrite Hok. by destruct (load_from_state_dict _ target).
Qed.

(** ** [clear] *)

(** X13: [clear] puts the sixteen attributes it names back to their values
    in a new object and drops the cache, and it leaves every other attribute
    in place: the [uids] and [last_update] of an earlier [sync] survive it. *)
Theorem clear_resets_named_attributes (__version_as_int__ : Z) (self : Metagraph) :
  (clear __version_as_int__ self).2 = inr tt /\
  _endpoint_objs (clear __version_as_int__ self).1 = None /\
  (forall key, key ∈ cleared_fields ->
     _parameters (clear __version_as_int__ self).1 !! key
     = _parameters (init __version_as_int__) !! key) /\
  (forall key, key ∉ cleared_fields ->
     _parameters (clear __version_as_int__ self).1 !! key
     = _parameters self !! key).
Proof.
  unfold clear, set_parameter, set_endpoint_objs, bind, modify.
  cbn [fst snd _parameters _endpoint_objs].
  split; [done|]. split; [done|]. split.
  - intros key Hkey. unfold cleared_fields in Hkey.
    repeat (apply elem_of_cons in Hkey as [-> | Hkey];
            [repeat (rewrite lookup_insert_ne by discriminate);
             rewrite lookup_insert_eq; reflexivity|]).
    by apply elem_of_nil in Hkey.
  - intros key Hkey. unfold cleared_fields in Hkey.
    repeat (rewrite lookup_insert_ne; [|intros <-; apply Hkey; set_solver]).
    reflexivity.
Qed.

(** ** The miner's loop *)

Lemma list_index_first (x : string) (xs : list string) (i : nat) :
  xs !! i = Some x ->
  (forall j y, j < i -> xs !! j = Some y -> y <> x) ->
  list_index x xs = inr i.
Proof.
  revert i. induction xs as [|y xs IH]; intros [|i] Hi Hbefore; simpl in *;
    try discriminate.
  - injection Hi as ->. by rewrite bool_decide_eq_true_2.
  - rewrite bool_decide_eq_false_2 by (apply (Hbefore 0); [lia|done]).
    rewrite (IH i Hi); [done|].
    intros j z Hj Hz. apply (Hbefore (S j)); [lia|done].
Qed.

Lemma list_index_absent (x : string) (xs : list string) :
  x ∉ xs -> list_index x xs = inl ValueError.
Proof.
  induction xs as [|y xs IH]; intros Hx; simpl; [done|].
  apply not_elem_of_cons in Hx as [Hne Hx].
  rewrite bool_decide_eq_false_2 by done. by rewrite IH.
Qed.

Lemma bind_run {S A B} (c : M S A) (k : A -> M S B) (s : S) :
  (x <- c ;; k x) s
  = match c s with
    | (s', inr a) => k a s'
    | (s', inl e) => (s', inl e)
    end.
Proof. reflexivity. Qed.

Lemma bind_assoc_run {S A B C} (c : M S A) (k : A -> M S B) (h : B -> M S C) (s : S) :
  (x <- c ;; y <- k x ;; h y) s
  = match (x <- c ;; k x) s with
    | (s', inr b) => h b s'
    | (s', inl e) => (s', inl e)
    end.
Proof. unfold bind. by destruct (c s) as [s' [e|a]]. Qed.

Lemma getattr_run (self : Metagraph) (name : string) (t : tensor) :
  _parameters self !! name = Some t -> getattr name self = (self, inr t).
Proof. intros H. unfold getattr, bind, get, ret. by rewrite H. Qed.

Section Miner_facts.

Variable __version_as_int__ : Z.
Variable to_tensor : Endpoint.t -> exn + list Z.
Variable from_tensor : tensor -> exn + Endpoint.t.

(** The first two statements of a turn: when [sync] raises nothing is
    saved, and when it returns the bundle of the synced object goes to the
    file of the network. *)
Lemma sync_save_run (subtensor : Subtensor.t) (w : World) :
  (on_self (sync to_tensor subtensor None) ;; save subtensor None) w
  = match sync to_tensor subtensor None (self_ w) with
    | (synced, inr _) => save subtensor None (with_self w synced)
    | (s, inl e) => (with_self w s, inl e)
    end.
Proof.
  rewrite bind_run, on_self_run.
  by destruct (sync to_tensor subtensor None (self_ w)) as [s [e|[]]].
Qed.

(** The three scores the miner reads, at the position of a record. *)
Lemma sync_scores_at (subtensor : Subtensor.t) (block : option Z)
    (self self' : Metagraph) (ns : list Neuron.t) (i : nat) (n : Neuron.t) :
  sync to_tensor subtensor block self = (self', inr tt) ->
  Subtensor.neurons subtensor = inr ns ->
  ns !! i = Some n ->
  entry self' "stake" i = Some (cast float32 (truediv (Neuron.stake n) billion)) /\
  entry self' "ranks" i = Some (cast float32 (truediv (Neuron.rank n) billion)) /\
  entry self' "incentive" i
  = Some (cast float32 (truediv (Neuron.incentive n) billion)).
Proof.
  intros Hsync Hns Hi.
  apply sync_ok in Hsync as (blk & ns' & es & ws & bs & _ & Hns' & _ & _ & _ & ->).
  rewrite Hns in Hns'. injection Hns' as <-.
  destruct (published (length ns) blk (extend Locals.empty ns es ws bs)
              {| _parameters := _parameters self;
                 _endpoint_objs := Some (map endpoint_of ns) |})
    as (_ & _ & _ & _ & _ & Hstake & Hranks & _ & _ & Hinc & _).
  unfold entry. rewrite Hstake, Hranks, Hinc.
  cbn [entries extend Locals.stake Locals.ranks Locals.incentive Locals.empty app].
  by rewrite <- !list_fmap_compose, !list_lookup_fmap, Hi.
Qed.

(** A turn after [sync] and [save] have returned goes on from the world
    that [save] left, with the synced object in it. *)
Lemma report_after_save (subtensor : Subtensor.t) (ss58_address : string)
    (w saved : World) (synced : Metagraph) :
  sync to_tensor subtensor None (self_ w) = (synced, inr tt) ->
  save subtensor None (with_self w synced) = (saved, inr tt) ->
  self_ saved = synced /\
  report to_tensor from_tensor subtensor ss58_address w
  = (keys <- on_self (hotkeys from_tensor) ;;
     uid <- lift (list_index ss58_address keys) ;;
     S <- on_self (getattr "stake") ;;
     stake <- lift (tensor_at S uid) ;;
     R <- on_self (getattr "ranks") ;;
     rank <- lift (tensor_at R uid) ;;
     I <- on_self (getattr "incentive") ;;
     incentive <- lift (tensor_at I uid) ;;
     ret (stake, rank, incentive)) saved.
Proof.
  intros Hsync Hsave. split.
  - rewrite save_run in Hsave. by injection Hsave as <-.
  - unfold report. by rewrite bind_assoc_run, sync_save_run, Hsync, Hsave.
Qed.

(** It raises what [hotkeys.index] raises. *)
Lemma report_index_error (subtensor : Subtensor.t) (ss58_address : string)
    (w saved : World) (synced : Metagraph) (ns : list Neuron.t) (e : exn) :
  sync to_tensor subtensor None (self_ w) = (synced, inr tt) ->
  save subtensor None (with_self w synced) = (saved, inr tt) ->
  Subtensor.neurons subtensor = inr ns ->
  list_index ss58_address (map Neuron.hotkey ns) = inl e ->
  report to_tensor from_tensor subtensor ss58_address w = (saved, inl e).
Proof.
  intros Hsync Hsave Hns Hidx.
  pose proof (sync_hotkeys to_tensor from_tensor _ _ _ _ _ Hsync Hns) as Hhot.
  destruct (report_after_save subtensor ss58_address w saved synced Hsync Hsave)
    as [Hself ->].
  rewrite bind_run, on_self_run, Hself, Hhot. cbn [fst snd].
  rewrite <- Hself, with_self_same.
  rewrite bind_run. unfold lift at 1. by rewrite Hidx.
Qed.

(** Or it returns the entries at the position [hotkeys.index] found. *)
Lemma report_scores (subtensor : Subtensor.t) (ss58_address : string)
    (w saved : World) (synced : Metagraph) (ns : list Neuron.t) (uid : nat)
    (stake rank incentive : Q) :
  sync to_tensor subtensor None (self_ w) = (synced, inr tt) ->
  save subtensor None (with_self w synced) = (saved, inr tt) ->
  Subtensor.neurons subtensor = inr ns ->
  list_index ss58_address (map Neuron.hotkey ns) = inr uid ->
  entry synced "stake" uid = Some stake ->
  entry synced "ranks" uid = Some rank ->
  entry synced "incentive" uid = Some incentive ->
  report to_tensor from_tensor subtensor ss58_address w
  = (saved, inr (stake, rank, incentive)).
Proof.
  intros Hsync Hsave Hns Hidx Hstake Hrank Hinc.
  pose proof (sync_hotkeys to_tensor from_tensor _ _ _ _ _ Hsync Hns) as Hhot.
  destruct (report_after_save subtensor ss58_address w saved synced Hsync Hsave)
    as [Hself ->].
  assert (Hat : forall key x,
             entry synced key uid = Some x ->
             exists t, _parameters synced !! key = Some t /\ tensor_at t uid = inr x).
  { unfold entry. intros key x Hx.
    destruct (_parameters synced !! key) as [[y|v|m]|]; simpl in Hx;
      try discriminate.
    eexists. split; [done|]. simpl. by rewrite Hx. }
  destruct (Hat _ _ Hstake) as (S & HS & HSat).
  destruct (Hat _ _ Hrank) as (R & HR & HRat).
  destruct (Hat _ _ Hinc) as (I & HI & HIat).
  rewrite bind_run, on_self_run, Hself, Hhot. cbn [fst snd].
  rewrite <- Hself, with_self_same.
  rewrite bind_run. unfold lift at 1. rewrite Hidx.
  rewrite bind_run, on_self_run, Hself, (getattr_run _ _ _ HS). cbn [fst snd].
  rewrite <- Hself, with_self_same.
  rewrite bind_run. unfold lift at 1. rewrite HSat.
  rewrite bind_run, on_self_run, Hself, (getattr_run _ _ _ HR). cbn [fst snd].
  rewrite <- Hself, with_self_same.
  rewrite bind_run. unfold lift at 1. rewrite HRat.
  rewrite bind_run, on_self_run, Hself, (getattr_run _ _ _ HI). cbn [fst snd].
  rewrite <- Hself, with_self_same.
  rewrite bind_run. unfold lift at 1. rewrite HIat.
  reflexivity.
Qed.

(** A turn returns only if [sync] returned. *)
Lemma report_ok (subtensor : Subtensor.t) (ss58_address : string)
    (w w' : World) (scores : Q * Q * Q) :
  report to_tensor from_tensor subtensor ss58_address w = (w', inr scores) ->
  exists synced saved,
    sync to_tensor subtensor None (self_ w) = (synced, inr tt) /\
    save subtensor None (with_self w synced) = (saved, inr tt).
Proof.
  unfold report. rewrite bind_assoc_run, sync_save_run.
  destruct (sync to_tensor subtensor None (self_ w)) as [synced [e|[]]];
    [discriminate|].
  intros _. eexists synced, _. split; [done|]. apply save_run.
Qed.

(** X14: a turn of the miner's loop reports the miner's own scores.  When
    the turn returns and the wallet's hotkey is that of the record at
    position [i] of the ledger's answer and of no record before it, the
    values it returns are the entries at position [i] of the stake, ranks
    and incentive vectors of the object: what [float32] keeps of the stake,
    rank and incentive of that record, each divided by 10^9, the raw
    integers being of magnitude below 2^63. *)
Theorem report_registered (subtensor : Subtensor.t) (ss58_address : string)
    (w w' : World) (scores : Q * Q * Q) (ns : list Neuron.t) (i : nat)
    (n : Neuron.t) :
  report to_tensor from_tensor subtensor ss58_address w = (w', inr scores) ->
  Subtensor.neurons subtensor = inr ns ->
  ns !! i = Some n ->
  Neuron.hotkey n = ss58_address ->
  (forall j m, j < i -> ns !! j = Some m -> Neuron.hotkey m <> ss58_address) ->
  Forall ledger_integer [Neuron.stake n; Neuron.rank n; Neuron.incentive n] ->
  entry (self_ w') "stake" i = Some scores.1.1 /\
  entry (self_ w') "ranks" i = Some scores.1.2 /\
  entry (self_ w') "incentive" i = Some scores.2 /\
  scores = (cast float32 (truediv (Neuron.stake n) billion),
            cast float32 (truediv (Neuron.rank n) billion),
            cast float32 (truediv (Neuron.incentive n) billion)).
Proof.
  intros Hturn Hns Hi Hkey Hfirst _.
  destruct (report_ok _ _ _ _ _ Hturn) as (synced & saved & Hsync & Hsave).
  destruct (sync_scores_at _ _ _ _ _ _ _ Hsync Hns Hi) as (Hstake & Hrank & Hinc).
  assert (Hidx : list_index ss58_address (map Neuron.hotkey ns) = inr i).
  { apply list_index_first.
    - by rewrite list_lookup_fmap, Hi, <- Hkey.
    - intros j y Hj Hy. rewrite list_lookup_fmap in Hy.
      destruct (ns !! j) as [m|] eqn:Hm; [|discriminate]. injection Hy as <-.
      by eapply Hfirst. }
  pose proof (report_scores subtensor ss58_address w saved synced ns i _ _ _
                Hsync Hsave Hns Hidx Hstake Hrank Hinc) as Hrun.
  destruct (report_after_save subtensor ss58_address w saved synced Hsync Hsave)
    as [Hself _].
  rewrite Hturn in Hrun. injection Hrun as -> ->. rewrite Hself.
  cbn [fst snd]. split; [exact Hstake|]. split; [exact Hrank|].
  split; [exact Hinc|reflexivity].
Qed.

(** X15: when [sync] and [save] have returned and no record of the answer
    carries the wallet's hotkey, the turn raises [ValueError] at
    [hotkeys.index], with the object synced and its bundle in the file of
    the network. *)
Theorem report_unregistered (subtensor : Subtensor.t) (ss58_address : string)
    (w saved : World) (synced : Metagraph) (ns : list Neuron.t) :
  sync to_tensor subtensor None (self_ w) = (synced, inr tt) ->
  save subtensor None (with_self w synced) = (saved, inr tt) ->
  Subtensor.neurons subtensor = inr ns ->
  ss58_address ∉ map Neuron.hotkey ns ->
  report to_tensor from_tensor subtensor ss58_address w = (saved, inl ValueError) /\
  self_ saved = synced /\
  filesystem saved
    !! collapse_slashes (saved_path (home w) (Subtensor.network subtensor))
  = Some (Pickle (state_dict synced)).
Proof.
  intros Hsync Hsave Hns Habsent.
  split; [|split].
  - by eapply report_index_error; [..|apply list_index_absent].
  - by destruct (report_after_save subtensor ss58_address w saved synced Hsync Hsave).
  - rewrite save_run in Hsave. injection Hsave as <-.
    apply lookup_insert_eq.
Qed.

(** X16: the miner's first statement, [metagraph.load().sync().save()] on a
    new object.  Whatever the file of the network held, when the statement
    returns the object lists the hotkeys of the ledger's answer, the file of
    the network holds the bundle of that object, and no other file has
    changed. *)
Theorem startup_saves_synced_state (subtensor : Subtensor.t) (w w' : World)
    (ns : list Neuron.t) :
  startup __version_as_int__ to_tensor subtensor w = (w', inr tt) ->
  Subtensor.neurons subtensor = inr ns ->
  hotkeys from_tensor (self_ w') = (self_ w', inr (map Neuron.hotkey ns)) /\
  filesystem w'
  = <[collapse_slashes (metagraph_path (home w) (Subtensor.network subtensor))
      := Pickle (state_dict (self_ w'))]> (filesystem w).
Proof.
  intros Hrun Hns. revert Hrun.
  unfold startup. rewrite bind_run, on_self_run. cbn [fst snd].
  set (w0 := with_self w _).
  rewrite bind_run.
  destruct (load_frame subtensor None w0) as (Hok & Hfs & Hhome & Hpw).
  destruct (load subtensor None w0) as [w1 r] eqn:Hload. simpl in Hok, Hfs, Hhome, Hpw.
  subst r.
  rewrite sync_save_run.
  destruct (sync to_tensor subtensor None (self_ w1)) as [synced [e|[]]] eqn:Hsync;
    [discriminate|].
  rewrite save_run. intros [= <-].
  cbn [self_ with_file with_self filesystem].
  pose proof (sync_hotkeys to_tensor from_tensor _ _ _ _ _ Hsync Hns) as Hhot.
  split; [exact Hhot|].
  rewrite Hfs, Hhome. unfold w0. cbn [home with_self filesystem].
  by rewrite <- saved_path_metagraph_path.
Qed.

End Miner_facts.

(** ** Witnesses of the further properties *)

Lemma views_empty_when_n_zero_witness :
  hotkeys Sample.from_tensor Sample.fresh = (Sample.fresh, inr []) /\
  addresses Sample.from_tensor Sample.ip__str__ Sample.fresh = (Sample.fresh, inr []).
Proof.
  destruct (views_empty_when_n_zero Sample.from_tensor Sample.ip__str__
              Sample.fresh 0%Q) as (_ & Hh & _ & _ & Ha).
  - exists (T1 [0%Q]). split; reflexivity.
  - reflexivity.
  - split; [exact Hh | exact Ha].
Defined.

Lemma endpoint_objs_memoised_witness :
  endpoint_objs Sample.from_tensor Sample.reloaded
  = ((endpoint_objs Sample.from_tensor Sample.reloaded).1,
     inr (map endpoint_of Sample.two_neurons)) /\
  _endpoint_objs Sample.reloaded = None /\
  _endpoint_objs (endpoint_objs Sample.from_tensor Sample.reloaded).1
  = Some (map endpoint_of Sample.two_neurons) /\
  hotkeys (fun _ => inl EncodingError)
          (endpoint_objs Sample.from_tensor Sample.reloaded).1
  = ((endpoint_objs Sample.from_tensor Sample.reloaded).1, inr ["hk0"; "hk1"]).
Proof.
  assert (Hrun : endpoint_objs Sample.from_tensor Sample.reloaded
                 = ((endpoint_objs Sample.from_tensor Sample.reloaded).1,
                    inr (map endpoint_of Sample.two_neurons)))
    by (vm_compute; reflexivity).
  split; [exact Hrun|]. split; [vm_compute; reflexivity|].
  split; [vm_compute; reflexivity|].
  destruct (endpoint_objs_memoised Sample.from_tensor Sample.reloaded _ _ Hrun)
    as (_ & _ & Hagain).
  exact (proj2 (Hagain (fun _ => inl EncodingError))).
Defined.

Lemma load_invalidates_cache_witness :
  _endpoint_objs (load_from_state_dict (state_dict Sample.synced)
                    Sample.after_failed_sync).1 = None /\
  (hotkeys Sample.from_tensor
     (load_from_state_dict (state_dict Sample.synced) Sample.after_failed_sync).1).2
  = (hotkeys Sample.from_tensor
       {| _parameters := state_dict Sample.synced; _endpoint_objs := None |}).2.
Proof.
  apply (load_invalidates_cache Sample.from_tensor (state_dict Sample.synced)
           Sample.after_failed_sync).
  unfold has_fields, state_fields.
  repeat (apply Forall_cons; split; [by eexists|]). by apply Forall_nil.
Defined.

Lemma load_from_state_dict_first_missing_witness :
  (load_from_state_dict (state_dict Sample.fresh) Sample.synced).2
  = inl (KeyError "uids") /\
  _endpoint_objs (load_from_state_dict (state_dict Sample.fresh) Sample.synced).1
  = _endpoint_objs Sample.synced /\
  _parameters (load_from_state_dict (state_dict Sample.fresh) Sample.synced).1 !! "n"
  = state_dict Sample.fresh !! "n" /\
  _parameters (load_from_state_dict (state_dict Sample.fresh) Sample.synced).1
    !! "stake"
  = _parameters Sample.synced !! "stake".
Proof.
  destruct (load_from_state_dict_first_missing (state_dict Sample.fresh)
              Sample.synced ["version"; "n"; "tau"; "block"]
              ["stake"; "ranks"; "trust"; "consensus"; "incentive"; "inflation";
               "dividends"; "active"; "lastupdate"; "weights"; "bonds"; "endpoints"]
              "uids") as (Hr & Hc & Hin & Hout).
  - reflexivity.
  - unfold has_fields. repeat (apply Forall_cons; split; [by eexists|]).
    by apply Forall_nil.
  - reflexivity.
  - split; [exact Hr|]. split; [exact Hc|]. split.
    + apply Hin. find_key.
    + apply Hout. rewrite !not_elem_of_cons.
      repeat split; try discriminate. apply not_elem_of_nil.
Defined.

Lemma sync_views_follow_ledger_witness :
  hotkeys Sample.from_tensor Sample.synced = (Sample.synced, inr ["hk0"; "hk1"]) /\
  _parameters Sample.synced !! "uids" = Some (T1 [0%Q; 1%Q]).
Proof.
  destruct (sync_views_follow_ledger Sample.to_tensor Sample.from_tensor
              Sample.ip__str__ (Sample.ledger 42 Sample.two_neurons) None
              Sample.fresh Sample.synced Sample.two_neurons)
    as (_ & Hu & Hh & _).
  - vm_compute. reflexivity.
  - reflexivity.
  - split; [exact Hh|]. apply Hu.
    repeat (apply Forall_cons; split; [simpl; lia|]). apply Forall_nil. exact I.
Defined.

Lemma reload_recovers_views_witness :
  (hotkeys Sample.from_tensor
     (load_from_state_dict (state_dict Sample.synced) Sample.after_failed_sync).1).2
  = inr ["hk0"; "hk1"].
Proof.
  destruct (reload_recovers_views Sample.to_tensor Sample.from_tensor
              (Sample.ledger 42 Sample.two_neurons) None Sample.fresh Sample.synced
              Sample.after_failed_sync Sample.two_neurons) as (_ & Hh & _).
  - unfold has_fields, cleared_fields.
    repeat (apply Forall_cons; split; [by eexists|]). by apply Forall_nil.
  - vm_compute. reflexivity.
  - reflexivity.
  - repeat (apply Forall_cons; split;
            [eexists; split; [reflexivity|vm_compute; reflexivity]|]).
    by apply Forall_nil.
  - exact Hh.
Defined.

Lemma sync_succeeds_only_if_witness :
  exists blk ns,
    Subtensor.get_current_block (Sample.ledger 42 Sample.two_neurons) = inr blk /\
    Subtensor.neurons (Sample.ledger 42 Sample.two_neurons) = inr ns /\
    Forall (well_formed Sample.to_tensor (length ns)) ns.
Proof.
  apply (sync_succeeds_only_if Sample.to_tensor
           (Sample.ledger 42 Sample.two_neurons) None Sample.fresh).
  vm_compute. reflexivity.
Defined.

Lemma sync_twice_witness :
  sync Sample.to_tensor (Sample.ledger 42 Sample.two_neurons) (Some 7%Z) Sample.synced
  = (Sample.synced, inr tt).
Proof.
  apply (sync_twice Sample.to_tensor (Sample.ledger 42 Sample.two_neurons) None
           (Some 7%Z) Sample.fresh Sample.synced).
  vm_compute. reflexivity.
Defined.

Lemma sync_keeps_other_attributes_witness :
  _parameters Sample.synced !! "version" = _parameters Sample.fresh !! "version".
Proof.
  apply (sync_keeps_other_attributes Sample.to_tensor
           (Sample.ledger 42 Sample.two_neurons) None Sample.fresh "version").
  unfold synced_fields. rewrite !not_elem_of_cons.
  repeat split; try discriminate. apply not_elem_of_nil.
Defined.

Lemma failed_sync_keeps_tensors_witness :
  state_dict Sample.after_failed_sync = state_dict Sample.synced.
Proof.
  apply (failed_sync_keeps_tensors Sample.to_tensor
           (Sample.ledger 43 Sample.inconsistent_neurons) None Sample.synced
           Sample.after_failed_sync (IndexOutOfRange 5)).
  vm_compute. reflexivity.
Defined.

Lemma save_then_load_restores_witness :
  filesystem (save (Sample.ledger 42 []) None (Sample.world Sample.synced ∅)).1
  = {[ Sample.path := Pickle (state_dict Sample.synced) ]} /\
  load (Sample.ledger 42 []) None
    (with_self (save (Sample.ledger 42 []) None (Sample.world Sample.synced ∅)).1
       Sample.fresh)
  = (with_self (save (Sample.ledger 42 []) None (Sample.world Sample.synced ∅)).1
       (load_from_state_dict (state_dict Sample.synced) Sample.fresh).1, inr tt).
Proof.
  destruct (save_then_load_restores (Sample.ledger 42 []) None
              (Sample.world Sample.synced ∅)
              (save (Sample.ledger 42 []) None (Sample.world Sample.synced ∅)).1)
    as (_ & _ & _ & Hfiles & Hload).
  - reflexivity.
  - split; [exact Hfiles|].
    destruct (Hload Sample.fresh "home/user") as (Hrun & _).
    + reflexivity.
    + unfold has_fields, state_fields.
      repeat (apply Forall_cons; split; [by eexists|]). by apply Forall_nil.
    + exact Hrun.
Defined.

Lemma report_registered_witness :
  report Sample.to_tensor Sample.from_tensor (Sample.ledger 42 Sample.two_neurons)
         "hk1" (Sample.world Sample.fresh ∅)
  = ((report Sample.to_tensor Sample.from_tensor
             (Sample.ledger 42 Sample.two_neurons) "hk1"
             (Sample.world Sample.fresh ∅)).1,
     inr ((1 # 2)%Q, 0%Q, 0%Q)) /\
  entry (self_ (report Sample.to_tensor Sample.from_tensor
                       (Sample.ledger 42 Sample.two_neurons) "hk1"
                       (Sample.world Sample.fresh ∅)).1) "stake" 1
  = Some (1 # 2)%Q.
Proof.
  assert (Hrun : report Sample.to_tensor Sample.from_tensor
                        (Sample.ledger 42 Sample.two_neurons) "hk1"
                        (Sample.world Sample.fresh ∅)
                 = ((report Sample.to_tensor Sample.from_tensor
                            (Sample.ledger 42 Sample.two_neurons) "hk1"
                            (Sample.world Sample.fresh ∅)).1,
                    inr ((1 # 2)%Q, 0%Q, 0%Q)))
    by (apply run_outcome; vm_compute; reflexivity).
  split; [exact Hrun|].
  destruct (report_registered Sample.to_tensor Sample.from_tensor
              (Sample.ledger 42 Sample.two_neurons) "hk1"
              (Sample.world Sample.fresh ∅) _ _ Sample.two_neurons 1
              (Sample.neuron 1 500000000 9 "hk1" [] []) Hrun eq_refl eq_refl eq_refl)
    as (Hstake & _).
  - intros [|j] m Hj Hm; [|lia]. injection Hm as <-. discriminate.
  - repeat (apply Forall_cons; split; [unfold ledger_integer; simpl; lia|]).
    apply Forall_nil. exact I.
  - exact Hstake.
Defined.

Lemma report_unregistered_witness :
  report Sample.to_tensor Sample.from_tensor (Sample.ledger 42 Sample.two_neurons)
         "hk9" (Sample.world Sample.fresh ∅)
  = ((save (Sample.ledger 42 Sample.two_neurons) None
           (with_self (Sample.world Sample.fresh ∅) Sample.synced)).1,
     inl ValueError).
Proof.
  destruct (report_unregistered Sample.to_tensor Sample.from_tensor
              (Sample.ledger 42 Sample.two_neurons) "hk9"
              (Sample.world Sample.fresh ∅)
              (save (Sample.ledger 42 Sample.two_neurons) None
                    (with_self (Sample.world Sample.fresh ∅) Sample.synced)).1
              Sample.synced Sample.two_neurons) as (Hturn & _).
  - vm_compute. reflexivity.
  - reflexivity.
  - reflexivity.
  - simpl. rewrite !not_elem_of_cons.
    repeat split; try discriminate. apply not_elem_of_nil.
  - exact Hturn.
Defined.

Lemma startup_saves_synced_state_witness :
  hotkeys Sample.from_tensor
    (self_ (startup Sample.version Sample.to_tensor
              (Sample.ledger 42 Sample.two_neurons)
              (Sample.world Sample.after_failed_sync
                 {[ Sample.path := Malformed ]})).1)
  = (self_ (startup Sample.version Sample.to_tensor
              (Sample.ledger 42 Sample.two_neurons)
              (Sample.world Sample.after_failed_sync
                 {[ Sample.path := Malformed ]})).1,
     inr ["hk0"; "hk1"]).
Proof.
  destruct (startup_saves_synced_state Sample.version Sample.to_tensor
              Sample.from_tensor (Sample.ledger 42 Sample.two_neurons)
              (Sample.world Sample.after_failed_sync {[ Sample.path := Malformed ]})
              (startup Sample.version Sample.to_tensor
                 (Sample.ledger 42 Sample.two_neurons)
                 (Sample.world Sample.after_failed_sync
                    {[ Sample.path := Malformed ]})).1
              Sample.two_neurons) as (Hkeys & _).
  - apply run_outcome. vm_compute. reflexivity.
  - reflexivity.
  - exact Hkeys.
Defined.
